(** * yfinance-mcp: the tool layer of [server.py]

    The seven tools of [server.py] are glue over three external
    collaborators: the market-data provider ([yf.Ticker] and its
    accessors), pandas ([reset_index], [to_json], column selection,
    [pd.isna]) and Python's [json.dumps].  The development embeds

    - Python values, dictionaries and exceptions ([Module Py]);
    - the pandas operations the tools call ([Module pd]);
    - the provider as an oracle answering requests ([Module yf]);
    - the tools themselves as programs over that oracle, with the
      try/except blocks of the source written out.

    Text that only the external encoders decide (how a float or a
    quoted string is printed) is left as a parameter ([Libs]). *)

From Stdlib Require Import String Ascii List NArith ZArith Bool Lia Arith.
From Stdlib Require Import DecimalString.
From Stdlib Require Import Floats.SpecFloat.
Import ListNotations.
Open Scope string_scope.

(** ** Python values *)

Module Py.

(** An exception object: its class name and [str(e)]. *)
Record exn : Type := Exception { exn_type : string; exn_msg : string }.

(** The result of evaluating a Python expression: a value, or a raised
    exception. *)
Inductive outcome (A : Type) : Type :=
| Ok (a : A)
| Err (e : exn).
Arguments Ok {A} a.
Arguments Err {A} e.

Definition obind {A B} (o : outcome A) (f : A -> outcome B) : outcome B :=
  match o with
  | Ok a => f a
  | Err e => Err e
  end.

(** [pd.Timestamp]: the civil date, the time of day in nanoseconds and
    the zone name when the value is zone-aware. *)
Record Timestamp : Type := mkTimestamp {
  year : N; month : N; day : N;
  time_ns : N;
  tz : option string
}.

(** Hashable values used as dictionary keys and as pandas axis labels. *)
Inductive label : Type :=
| LStr (s : string)
| LInt (z : Z)
| LTs (t : Timestamp).

(** Scalars: what a table cell or a leaf of a JSON-like object holds.
    [SInt] is a Python [int], [SFloat] a Python or numpy float. *)
Inductive scalar : Type :=
| SNone
| SNaT
| SBool (b : bool)
| SInt (z : Z)
| SFloat (f : spec_float)
| SStr (s : string)
| STs (t : Timestamp).

(** Python objects built from scalars, lists and insertion-ordered
    dictionaries. *)
#[local] Set Warnings "-register-all".
Inductive pyval : Type :=
| PScalar (x : scalar)
| PList (l : list pyval)
| PDict (d : list (label * pyval)).

Definition dict : Type := list (label * pyval).

Definition PNone : pyval := PScalar SNone.
Definition PStr (s : string) : pyval := PScalar (SStr s).

(** *** Equality on keys *)

Definition option_eqb {A} (eqb : A -> A -> bool) (a b : option A) : bool :=
  match a, b with
  | Some x, Some y => eqb x y
  | None, None => true
  | _, _ => false
  end.

Definition Timestamp_eqb (a b : Timestamp) : bool :=
  N.eqb (year a) (year b) && N.eqb (month a) (month b)
  && N.eqb (day a) (day b) && N.eqb (time_ns a) (time_ns b)
  && option_eqb String.eqb (tz a) (tz b).

Definition label_eqb (a b : label) : bool :=
  match a, b with
  | LStr s, LStr s' => String.eqb s s'
  | LInt z, LInt z' => Z.eqb z z'
  | LTs t, LTs t' => Timestamp_eqb t t'
  | _, _ => false
  end.

(** *** Dictionaries

    A Python [dict] keeps its keys in insertion order; assigning to a key
    that is present replaces the value where the key already stands. *)

Fixpoint dict_get (k : label) (d : dict) : option pyval :=
  match d with
  | [] => None
  | (k', v) :: d' => if label_eqb k k' then Some v else dict_get k d'
  end.

(** [d[k] = v] *)
Fixpoint dict_set (k : label) (v : pyval) (d : dict) : dict :=
  match d with
  | [] => [(k, v)]
  | (k', v') :: d' =>
      if label_eqb k k' then (k', v) :: d' else (k', v') :: dict_set k v d'
  end.

Definition keys (d : dict) : list label := map fst d.

Fixpoint mem (k : label) (l : list label) : bool :=
  match l with
  | [] => false
  | k' :: l' => label_eqb k k' || mem k l'
  end.

Fixpoint unique (l : list label) : bool :=
  match l with
  | [] => true
  | k :: l' => negb (mem k l') && unique l'
  end.

(** *** Text *)

Fixpoint join (sep : string) (l : list string) : string :=
  match l with
  | [] => ""
  | [s] => s
  | s :: l' => s ++ sep ++ join sep l'
  end.

(** [str(n)] for an integer. *)
Definition str_int (z : Z) : string := NilZero.string_of_int (Z.to_int z).
Definition str_N (n : N) : string := NilZero.string_of_uint (N.to_uint n).

Fixpoint zeros (n : nat) : string :=
  match n with
  | O => ""
  | S n' => String "0" (zeros n')
  end.

(** A number printed in at least [w] digits, padded with zeros on the
    left ([%02d], [%04d]). *)
Definition zpad (w : nat) (n : N) : string :=
  let s := str_N n in zeros (w - String.length s) ++ s.

(** [t.strftime("%Y-%m-%d")] *)
Definition strftime_Ymd (t : Timestamp) : string :=
  zpad 4 (year t) ++ "-" ++ zpad 2 (month t) ++ "-" ++ zpad 2 (day t).

Definition type_name (v : pyval) : string :=
  match v with
  | PScalar SNone => "NoneType"
  | PScalar SNaT => "NaTType"
  | PScalar (SBool _) => "bool"
  | PScalar (SInt _) => "int"
  | PScalar (SFloat _) => "float"
  | PScalar (SStr _) => "str"
  | PScalar (STs _) => "Timestamp"
  | PList _ => "list"
  | PDict _ => "dict"
  end.

Definition AttributeError (v : pyval) (attr : string) : exn :=
  Exception "AttributeError"
    ("'" ++ type_name v ++ "' object has no attribute '" ++ attr ++ "'").

(** [v.get(k, default)]: defined on dictionaries only. *)
Definition get (v : pyval) (k : label) (default : pyval) : outcome pyval :=
  match v with
  | PDict d =>
      match dict_get k d with
      | Some x => Ok x
      | None => Ok default
      end
  | _ => Err (AttributeError v "get")
  end.

(** [v == s] for a string literal [s]. *)
Definition eq_str (v : pyval) (s : string) : bool :=
  match v with
  | PScalar (SStr s') => String.eqb s' s
  | _ => false
  end.

Definition scalar_of_label (k : label) : scalar :=
  match k with
  | LStr s => SStr s
  | LInt z => SInt z
  | LTs t => STs t
  end.

Definition chars (s : string) : list pyval :=
  map (fun c => PStr (String c "")) (list_ascii_of_string s).

(** [for x in v]: the elements a [for] loop visits. *)
Definition iter (v : pyval) : outcome (list pyval) :=
  match v with
  | PList l => Ok l
  | PDict d => Ok (map (fun k => PScalar (scalar_of_label k)) (keys d))
  | PScalar (SStr s) => Ok (chars s)
  | _ => Err (Exception "TypeError"
                ("'" ++ type_name v ++ "' object is not iterable"))
  end.

(** [v.items()] *)
Definition items (v : pyval) : outcome dict :=
  match v with
  | PDict d => Ok d
  | _ => Err (AttributeError v "items")
  end.

End Py.
Import Py.

(** ** External text encoders

    The leaves of the two JSON encoders and the text of [str()] on
    values that are not strings are decided by the Python runtime and by
    pandas, not by [server.py]; they are parameters of the development. *)

Inductive date_format : Type := Epoch | Iso.

(** The double quote. *)
Definition dq : string := String (ascii_of_nat 34) "".

Record Libs : Type := mkLibs {
  (** [float.__repr__] on a finite float, as [json.dumps] prints it *)
  float_repr : spec_float -> string;
  (** [json.dumps] of a string: quotes and escapes *)
  json_quote : string -> string;
  (** [str(v)] for a value that is not a string *)
  str_other : pyval -> string;
  (** pandas' encoder on one cell, under the given [date_format] *)
  pd_cell : date_format -> scalar -> string;
  (** pandas' encoder on a column label used as an object key *)
  pd_key : date_format -> label -> string;
  (** pandas' conversion of a zone-aware timestamp to UTC *)
  to_utc : Timestamp -> Timestamp;
  (** whether this pandas ends a zone-naive ISO timestamp with [Z], as
      older versions do *)
  naive_Z : bool
}.

(** ** [json.dumps] *)

Module json.
Section Dumps.
Variable L : Libs.

Definition not_serializable (what : string) : exn :=
  Exception "TypeError"
    ("Object of type " ++ what ++ " is not JSON serializable").

Definition dumps_scalar (x : scalar) : outcome string :=
  match x with
  | SNone => Ok "null"
  | SBool true => Ok "true"
  | SBool false => Ok "false"
  | SInt z => Ok (str_int z)
  | SFloat S754_nan => Ok "NaN"
  | SFloat (S754_infinity false) => Ok "Infinity"
  | SFloat (S754_infinity true) => Ok "-Infinity"
  | SFloat f => Ok (float_repr L f)
  | SStr s => Ok (json_quote L s)
  | STs _ => Err (not_serializable "Timestamp")
  | SNaT => Err (not_serializable "NaTType")
  end.

Definition dumps_key (k : label) : outcome string :=
  match k with
  | LStr s => Ok (json_quote L s)
  | LInt z => Ok (json_quote L (str_int z))
  | LTs _ =>
      Err (Exception "TypeError"
             "keys must be str, int, float, bool or None, not Timestamp")
  end.

(** [json.dumps(v)] with the default separators [", "] and [": "]. *)
Fixpoint dumps (v : pyval) : outcome string :=
  match v with
  | PScalar x => dumps_scalar x
  | PList l =>
      let fix elements (l : list pyval) : outcome (list string) :=
        match l with
        | [] => Ok []
        | x :: l' =>
            obind (dumps x) (fun s =>
            obind (elements l') (fun ss => Ok (s :: ss)))
        end in
      obind (elements l) (fun ss => Ok ("[" ++ join ", " ss ++ "]"))
  | PDict d =>
      let fix members (d : list (label * pyval)) : outcome (list string) :=
        match d with
        | [] => Ok []
        | (k, x) :: d' =>
            obind (dumps_key k) (fun sk =>
            obind (dumps x) (fun sx =>
            obind (members d') (fun ss => Ok ((sk ++ ": " ++ sx) :: ss))))
        end in
      obind (members d) (fun ss => Ok ("{" ++ join ", " ss ++ "}"))
  end.

End Dumps.
End json.

(** ** pandas *)

Module pd.

(** A [DataFrame]: row labels, column labels and the cell at a row and
    column position ([df.iat[i, j]]). *)
Record DataFrame : Type := mkDataFrame {
  index : list label;
  columns : list label;
  iat : nat -> nat -> scalar
}.

(** What a provider accessor hands back: a plain Python value or a
    table. *)
Inductive pyobj : Type :=
| OVal (v : pyval)
| OFrame (df : DataFrame).

Definition ValueError (msg : string) : exn := Exception "ValueError" msg.

Definition enumerate {A} (l : list A) : list (nat * A) :=
  combine (seq 0 (length l)) l.

(** [pd.isna(x)] on a scalar *)
Definition isna (x : scalar) : bool :=
  match x with
  | SNone | SNaT | SFloat S754_nan => true
  | _ => false
  end.

Fixpoint count (c : label) (l : list label) : nat :=
  match l with
  | [] => 0
  | c' :: l' => (if label_eqb c c' then 1 else 0) + count c l'
  end.

Fixpoint position (c : label) (l : list label) : option nat :=
  match l with
  | [] => None
  | c' :: l' =>
      if label_eqb c c' then Some 0 else option_map S (position c l')
  end.

(** The column at position [j] as the pairs [Series.items()] yields. *)
Definition series (df : DataFrame) (j : nat) : list (label * scalar) :=
  map (fun '(i, r) => (r, iat df i j)) (enumerate (index df)).

(** [df[column].items()] as the statement loop consumes it.  Selection
    is by label.  A label carried by exactly one column selects a
    [Series].  A label carried by several columns selects a sub-frame,
    whose [items()] are whole columns; the loop then evaluates
    [None if pd.isna(value) else value] on a [Series], which raises.  A
    label of no column is a [KeyError]. *)
Definition column_items (df : DataFrame) (c : label)
  : outcome (list (label * scalar)) :=
  match position c (columns df) with
  | None => Err (Exception "KeyError" "column")
  | Some j =>
      if Nat.eqb (count c (columns df)) 1 then Ok (series df j)
      else Err (ValueError
        "The truth value of a Series is ambiguous. Use a.empty, a.bool(), a.item(), a.any() or a.all().")
  end.

(** [obj.columns] *)
Definition get_columns (o : pyobj) : outcome (list label) :=
  match o with
  | OFrame df => Ok (columns df)
  | OVal v => Err (AttributeError v "columns")
  end.

(** [obj.reset_index(names=name)]: the row labels become the first
    column, called [name], and the rows are renumbered from 0.  pandas
    refuses to insert a column whose name is already taken. *)
Definition reset_index (name : string) (o : pyobj) : outcome pyobj :=
  match o with
  | OVal v => Err (AttributeError v "reset_index")
  | OFrame df =>
      if mem (LStr name) (columns df) then
        Err (ValueError ("cannot insert " ++ name ++ ", already exists"))
      else
        Ok (OFrame {|
          index := map (fun i => LInt (Z.of_nat i)) (seq 0 (length (index df)));
          columns := LStr name :: columns df;
          iat := fun i j =>
            match j with
            | O => match nth_error (index df) i with
                   | Some r => scalar_of_label r
                   | None => SNone
                   end
            | S j' => iat df i j'
            end
        |})
  end.

(** The rows of a table as [orient="records"] lays them out: one record
    per row, one field per column, in column order. *)
Definition records (df : DataFrame) : list (list (label * scalar)) :=
  map (fun i => map (fun '(j, c) => (c, iat df i j)) (enumerate (columns df)))
      (seq 0 (length (index df))).

(** The time of day at millisecond precision, [HH:MM:SS.mmm]. *)
Definition iso_clock (t : Timestamp) : string :=
  let ms := (time_ns t / 1000000)%N in
  zpad 2 (ms / 3600000)%N ++ ":" ++ zpad 2 ((ms / 60000) mod 60)%N ++ ":"
  ++ zpad 2 ((ms / 1000) mod 60)%N ++ "." ++ zpad 3 (ms mod 1000)%N.

(** The fields of a timestamp in ISO 8601, [YYYY-MM-DDTHH:MM:SS.mmm]
    ([date_unit] is left at its default, milliseconds). *)
Definition isoformat (t : Timestamp) : string :=
  strftime_Ymd t ++ "T" ++ iso_clock t.

(** Letters, digits, the space and the underscore: characters a JSON
    encoder writes as they are. *)
Definition plain_char (c : ascii) : bool :=
  let n := nat_of_ascii c in
  (Nat.leb 48 n && Nat.leb n 57) || (Nat.leb 65 n && Nat.leb n 90)
  || (Nat.leb 97 n && Nat.leb n 122) || Nat.eqb n 32 || Nat.eqb n 95.

Definition plain (s : string) : bool :=
  forallb plain_char (list_ascii_of_string s).

Section ToJson.
Variable L : Libs.

(** A timestamp cell under [date_format="iso"]: a zone-aware value is
    converted to UTC and ends in [Z]; a zone-naive one is written as it
    stands. *)
Definition iso_cell (t : Timestamp) : string :=
  dq ++ match tz t with
        | Some _ => isoformat (to_utc L t) ++ "Z"
        | None => isoformat t ++ (if naive_Z L then "Z" else "")
        end ++ dq.

Definition cell_text (fmt : date_format) (x : scalar) : string :=
  match fmt, x with
  | Iso, STs t => iso_cell t
  | _, _ => pd_cell L fmt x
  end.

(** A string label made of plain characters is its own text between
    quotes. *)
Definition key_text (fmt : date_format) (c : label) : string :=
  match c with
  | LStr s => if plain s then dq ++ s ++ dq else pd_key L fmt c
  | _ => pd_key L fmt c
  end.

Definition encode_record (fmt : date_format) (r : list (label * scalar))
  : string :=
  "{" ++ join "," (map (fun '(c, x) => key_text fmt c ++ ":" ++ cell_text fmt x) r)
      ++ "}".

Definition encode_records (fmt : date_format)
  (rs : list (list (label * scalar))) : string :=
  "[" ++ join "," (map (encode_record fmt) rs) ++ "]".

(** [obj.to_json(orient="records", date_format=fmt)]; pandas requires
    unique column labels for this orientation. *)
Definition to_json (fmt : date_format) (o : pyobj) : outcome string :=
  match o with
  | OVal v => Err (AttributeError v "to_json")
  | OFrame df =>
      if unique (columns df) then Ok (encode_records fmt (records df))
      else Err (ValueError
        "DataFrame columns must be unique for orient='records'.")
  end.

End ToJson.
End pd.
Import pd.

(** ** The enumerations of [server.py] (lines 11-31) *)

Module FinancialType.
Inductive t : Type :=
| income_stmt
| quarterly_income_stmt
| balance_sheet
| quarterly_balance_sheet
| cashflow
| quarterly_cashflow.

Definition all : list t :=
  [income_stmt; quarterly_income_stmt; balance_sheet;
   quarterly_balance_sheet; cashflow; quarterly_cashflow].

Definition value (k : t) : string :=
  match k with
  | income_stmt => "income_stmt"
  | quarterly_income_stmt => "quarterly_income_stmt"
  | balance_sheet => "balance_sheet"
  | quarterly_balance_sheet => "quarterly_balance_sheet"
  | cashflow => "cashflow"
  | quarterly_cashflow => "quarterly_cashflow"
  end.
End FinancialType.

Module HolderType.
Inductive t : Type :=
| major_holders
| institutional_holders
| mutualfund_holders
| insider_transactions
| insider_purchases
| insider_roster_holders.

Definition all : list t :=
  [major_holders; institutional_holders; mutualfund_holders;
   insider_transactions; insider_purchases; insider_roster_holders].

Definition value (k : t) : string :=
  match k with
  | major_holders => "major_holders"
  | institutional_holders => "institutional_holders"
  | mutualfund_holders => "mutualfund_holders"
  | insider_transactions => "insider_transactions"
  | insider_purchases => "insider_purchases"
  | insider_roster_holders => "insider_roster_holders"
  end.
End HolderType.

Module RecommendationType.
Inductive t : Type :=
| recommendations
| upgrades_downgrades.

Definition all : list t := [recommendations; upgrades_downgrades].

Definition value (k : t) : string :=
  match k with
  | recommendations => "recommendations"
  | upgrades_downgrades => "upgrades_downgrades"
  end.
End RecommendationType.

(** A string is a legal value of an enumeration when it equals the value
    of one of the members. *)
Definition legal (values : list string) (s : string) : bool :=
  existsb (String.eqb s) values.

(** [format()] of a member of a [str]-mixin [Enum] inside an f-string.
    Up to Python 3.10 it is the member's value; from Python 3.11 on it is
    [str(member)], the class and member name. *)
Inductive enum_format : Type := ByValue | ByName.

Definition format_member (how : enum_format) (class value : string) : string :=
  match how with
  | ByValue => value
  | ByName => class ++ "." ++ value
  end.

(** ** The provider *)

Module yf.

(** The attributes of a [yf.Ticker] object that [server.py] reads. *)
Inductive accessor : Type :=
| isin
| history (period interval : string)
| info
| news
| actions
| income_stmt
| quarterly_income_stmt
| balance_sheet
| quarterly_balance_sheet
| cashflow
| quarterly_cashflow
| major_holders
| recommendations.

(** What the tools ask of the provider: build the handle
    ([yf.Ticker(ticker)]) or read one of its attributes. *)
Inductive request : Type :=
| Ticker (ticker : string)
| Attr (a : accessor).

(** The accessors that fetch data, as opposed to resolving the symbol. *)
Definition is_fetch (r : request) : bool :=
  match r with
  | Ticker _ => false
  | Attr isin => false
  | Attr _ => true
  end.

Definition is_statement (r : request) : bool :=
  match r with
  | Attr income_stmt | Attr quarterly_income_stmt | Attr balance_sheet
  | Attr quarterly_balance_sheet | Attr cashflow | Attr quarterly_cashflow => true
  | _ => false
  end.

End yf.

(** ** Programs over the provider

    A tool is a program that asks the provider, prints diagnostic lines,
    and ends by returning a value or by letting an exception escape. *)

Inductive prog (A : Type) : Type :=
| Return (a : A)
| Raise (e : exn)
| Call (r : yf.request) (k : outcome pyobj -> prog A)
| Out (line : string) (k : prog A).
Arguments Return {A} a.
Arguments Raise {A} e.
Arguments Call {A} r k.
Arguments Out {A} line k.

Fixpoint bind {A B} (p : prog A) (f : A -> prog B) : prog B :=
  match p with
  | Return a => f a
  | Raise e => Raise e
  | Call r k => Call r (fun o => bind (k o) f)
  | Out line k => Out line (bind k f)
  end.

(** [try: p  except Exception as e: h e] *)
Fixpoint try_except {A} (p : prog A) (h : exn -> prog A) : prog A :=
  match p with
  | Return a => Return a
  | Raise e => h e
  | Call r k => Call r (fun o => try_except (k o) h)
  | Out line k => Out line (try_except k h)
  end.

(** A provider request whose exception, if any, is raised in the tool. *)
Definition ask (r : yf.request) : prog pyobj :=
  Call r (fun o => match o with Ok v => Return v | Err e => Raise e end).

Definition print (line : string) : prog unit := Out line (Return tt).

(** The value of a library call, its exception raised in the tool. *)
Definition lift {A} (o : outcome A) : prog A :=
  match o with
  | Ok a => Return a
  | Err e => Raise e
  end.

Declare Scope prog_scope.
Delimit Scope prog_scope with prog.
Notation "x <- p ;; q" := (bind p (fun x => q))
  (at level 61, p at next level, right associativity) : prog_scope.
Notation "p ;; q" := (bind p (fun _ => q))
  (at level 61, right associativity) : prog_scope.

(** *** Running a program against a provider

    The provider answers each request knowing everything that happened
    before it in the call; nothing constrains its answers.  A run yields
    the events in the order they happened and the outcome of the tool. *)

Inductive event : Type :=
| Asked (r : yf.request)
| Printed (line : string).

Definition world : Type := list event -> yf.request -> outcome pyobj.

Fixpoint run {A} (w : world) (past : list event) (p : prog A)
  : list event * outcome A :=
  match p with
  | Return a => (past, Ok a)
  | Raise e => (past, Err e)
  | Call r k => run w (past ++ [Asked r]) (k (w past r))
  | Out line k => run w (past ++ [Printed line]) k
  end.

(** A tool call starts with no past. *)
Definition invoke {A} (w : world) (p : prog A) : list event * outcome A :=
  run w [] p.

Definition requests (tr : list event) : list yf.request :=
  flat_map (fun e => match e with Asked r => [r] | Printed _ => [] end) tr.

(** ** The tools of [server.py] *)

Section Server.
Variable L : Libs.
Variable enum_fmt : enum_format.
Local Open Scope prog_scope.

Definition nl : string := String (ascii_of_nat 10) "".

(** [f"{v}"] *)
Definition to_str (v : pyval) : string :=
  match v with
  | PScalar (SStr s) => s
  | _ => str_other L v
  end.

(** [x is None] *)
Definition is_None (o : pyobj) : bool :=
  match o with
  | OVal (PScalar SNone) => true
  | _ => false
  end.

Definition not_found (ticker : string) : string :=
  "Company ticker " ++ ticker ++ " not found.".

(** [f"Error: {action} for {ticker}: {e}"] *)
Definition error_text (action ticker : string) (e : exn) : string :=
  "Error: " ++ action ++ " for " ++ ticker ++ ": " ++ exn_msg e.

(** The block that follows [company = yf.Ticker(ticker)] in six tools
    (lines 88-94, 148-154, 240-246, 307-313, 396-402, 418-424), the same
    but for the words of the error line:

      try:
          if company.isin is None:
              print(...); return "Company ticker ... not found."
      except Exception as e:
          print(...); return "Error: ... for ...: ..."

    [Some s] stands for [return s], [None] for falling through. *)
Definition check_isin (ticker action : string) : prog (option string) :=
  try_except
    (v <- ask (yf.Attr yf.isin) ;;
     if is_None v then
       print (not_found ticker) ;;
       Return (Some (not_found ticker))
     else Return None)
    (fun e =>
       print (error_text action ticker e) ;;
       Return (Some (error_text action ticker e))).

(** *** get_historical_stock_prices (lines 70-100) *)
Definition get_historical_stock_prices (ticker period interval : string)
  : prog string :=
  _ <- ask (yf.Ticker ticker) ;;
  g <- check_isin ticker "getting historical stock prices" ;;
  match g with
  | Some s => Return s
  | None =>
      hist_data <- ask (yf.Attr (yf.history period interval)) ;;
      hist_data <- lift (reset_index "Date" hist_data) ;;
      lift (to_json L Iso hist_data)
  end.

(** *** get_stock_info (lines 145-218) *)
Definition relevant_keys : list string :=
  [ "symbol"; "longName"; "shortName"; "sector"; "industry";
    "website"; "currency";
    "marketCap"; "trailingPE"; "forwardPE"; "priceToBook";
    "trailingEps"; "forwardEps"; "bookValue";
    "earningsGrowth"; "revenueGrowth"; "netIncomeToCommon";
    "profitMargins"; "grossMargins"; "operatingMargins";
    "returnOnAssets"; "returnOnEquity";
    "totalRevenue"; "totalCash"; "totalDebt"; "debtToEquity";
    "currentRatio"; "quickRatio";
    "dividendRate"; "dividendYield"; "payoutRatio";
    "trailingAnnualDividendRate"; "trailingAnnualDividendYield";
    "currentPrice"; "fiftyDayAverage"; "twoHundredDayAverage";
    "fiftyTwoWeekLow"; "fiftyTwoWeekHigh"; "regularMarketChangePercent";
    "fiftyTwoWeekChangePercent"; "volume"; "averageVolume";
    "averageDailyVolume3Month"; "beta" ].

(** [k in relevant_keys] *)
Definition relevant (k : label) : bool :=
  match k with
  | LStr s => existsb (String.eqb s) relevant_keys
  | _ => false
  end.

(** [{k: v for k, v in items if k in relevant_keys}] *)
Definition trim (items : dict) : dict :=
  fold_left (fun acc '(k, v) => if relevant k then dict_set k v acc else acc)
            items [].

(** [json.dumps({k: v for k, v in info.items() if k in relevant_keys})].
    On a table, [items()] yields whole columns, which [json.dumps] refuses
    as soon as one is kept. *)
Definition trimmed_info (info : pyobj) : outcome string :=
  match info with
  | OVal v => obind (items v) (fun kvs => json.dumps L (PDict (trim kvs)))
  | OFrame df =>
      if existsb relevant (columns df)
      then Err (json.not_serializable "Series")
      else json.dumps L (PDict [])
  end.

Definition get_stock_info (ticker : string) : prog string :=
  _ <- ask (yf.Ticker ticker) ;;
  g <- check_isin ticker "getting stock information" ;;
  match g with
  | Some s => Return s
  | None =>
      info <- ask (yf.Attr yf.info) ;;
      lift (trimmed_info info)
  end.

(** *** get_yahoo_finance_news (lines 232-268) *)

(** The body of the [if] at lines 258-264: the text block of one item. *)
Definition news_block (news : pyval) : outcome string :=
  obind (get news (LStr "content") (PDict [])) (fun c1 =>
  obind (get c1 (LStr "title") (PStr "")) (fun title =>
  obind (get news (LStr "content") (PDict [])) (fun c2 =>
  obind (get c2 (LStr "summary") (PStr "")) (fun summary =>
  obind (get news (LStr "content") (PDict [])) (fun c3 =>
  obind (get c3 (LStr "description") (PStr "")) (fun description =>
  obind (get news (LStr "content") (PDict [])) (fun c4 =>
  obind (get c4 (LStr "canonicalUrl") (PDict [])) (fun canonical =>
  obind (get canonical (LStr "url") (PStr "")) (fun url =>
  Ok ("Title: " ++ to_str title ++ nl ++
      "Summary: " ++ to_str summary ++ nl ++
      "Description: " ++ to_str description ++ nl ++
      "URL: " ++ to_str url)))))))))).

(** [news.get("content", {}).get("contentType", "") == "STORY"] *)
Definition is_story (news : pyval) : outcome bool :=
  obind (get news (LStr "content") (PDict [])) (fun c =>
  obind (get c (LStr "contentType") (PStr "")) (fun ct =>
  Ok (eq_str ct "STORY"))).

(** The loop at lines 255-264: [news_list] when it ends. *)
Fixpoint news_loop (items : list pyval) : outcome (list string) :=
  match items with
  | [] => Ok []
  | news :: rest =>
      obind (is_story news) (fun story =>
      if story then
        obind (news_block news) (fun block =>
        obind (news_loop rest) (fun blocks => Ok (block :: blocks)))
      else news_loop rest)
  end.

(** [for news in obj]: iterating a table visits its column labels. *)
Definition obj_iter (o : pyobj) : outcome (list pyval) :=
  match o with
  | OVal v => iter v
  | OFrame df => Ok (map (fun c => PScalar (scalar_of_label c)) (columns df))
  end.

Definition no_news (ticker : string) : string :=
  "No news found for company that searched with " ++ ticker ++ " ticker.".

Definition get_yahoo_finance_news (ticker : string) : prog string :=
  _ <- ask (yf.Ticker ticker) ;;
  g <- check_isin ticker "getting news" ;;
  match g with
  | Some s => Return s
  | None =>
      g' <- try_except
              (_ <- ask (yf.Attr yf.news) ;; Return None)
              (fun e =>
                 print (error_text "getting news" ticker e) ;;
                 Return (Some (error_text "getting news" ticker e))) ;;
      match g' with
      | Some s => Return s
      | None =>
          (* line 256 reads [company.news] a second time, outside the try *)
          news <- ask (yf.Attr yf.news) ;;
          items <- lift (obj_iter news) ;;
          news_list <- lift (news_loop items) ;;
          match news_list with
          | [] => print (no_news ticker) ;; Return (no_news ticker)
          | _ => Return (join (nl ++ nl) news_list)
          end
      end
  end.

(** *** get_stock_actions (lines 280-289) *)
Definition get_stock_actions (ticker : string) : prog string :=
  g <- try_except
         (_ <- ask (yf.Ticker ticker) ;; Return None)
         (fun e =>
            print (error_text "getting stock actions" ticker e) ;;
            Return (Some (error_text "getting stock actions" ticker e))) ;;
  match g with
  | Some s => Return s
  | None =>
      actions_df <- ask (yf.Attr yf.actions) ;;
      actions_df <- lift (reset_index "Date" actions_df) ;;
      lift (to_json L Iso actions_df)
  end.

(** *** get_financial_statement (lines 303-350) *)

(** The [if]/[elif] chain at lines 315-327: the accessor read for a
    statement kind, [None] when the [else] branch is taken. *)
Definition select_statement (financial_type : string) : option yf.accessor :=
  if String.eqb financial_type (FinancialType.value FinancialType.income_stmt)
  then Some yf.income_stmt
  else if String.eqb financial_type
            (FinancialType.value FinancialType.quarterly_income_stmt)
  then Some yf.quarterly_income_stmt
  else if String.eqb financial_type
            (FinancialType.value FinancialType.balance_sheet)
  then Some yf.balance_sheet
  else if String.eqb financial_type
            (FinancialType.value FinancialType.quarterly_balance_sheet)
  then Some yf.quarterly_balance_sheet
  else if String.eqb financial_type
            (FinancialType.value FinancialType.cashflow)
  then Some yf.cashflow
  else if String.eqb financial_type
            (FinancialType.value FinancialType.quarterly_cashflow)
  then Some yf.quarterly_cashflow
  else None.

Definition fmt_kind (k : FinancialType.t) : string :=
  format_member enum_fmt "FinancialType" (FinancialType.value k).

(** The message of line 328. *)
Definition invalid_financial_type (financial_type : string) : string :=
  "Error: invalid financial type " ++ financial_type
  ++ ". Please use one of the following: "
  ++ fmt_kind FinancialType.income_stmt ++ ", "
  ++ fmt_kind FinancialType.quarterly_income_stmt ++ ", "
  ++ fmt_kind FinancialType.balance_sheet ++ ", "
  ++ fmt_kind FinancialType.quarterly_balance_sheet ++ ", "
  ++ fmt_kind FinancialType.cashflow ++ ", "
  ++ fmt_kind FinancialType.quarterly_cashflow ++ ".".

(** Lines 335-338 *)
Definition column_date (column : label) : string :=
  match column with
  | LTs t => strftime_Ymd t
  | LStr s => s
  | LInt z => str_int z
  end.

(** Lines 344-346: the writes of one column into [date_obj]. *)
Definition fill (date_obj : dict) (items : list (label * scalar)) : dict :=
  fold_left
    (fun d '(index, value) =>
       dict_set index (if isna value then PNone else PScalar value) d)
    items date_obj.

(** Lines 335-346: [date_obj] for one column. *)
Definition column_record (df : DataFrame) (column : label) : outcome dict :=
  obind (column_items df column) (fun items =>
  Ok (fill [(LStr "date", PStr (column_date column))] items)).

(** Lines 331-348: [result] after the loop over the given columns. *)
Fixpoint statement_loop (df : DataFrame) (cols : list label)
  : outcome (list dict) :=
  match cols with
  | [] => Ok []
  | column :: rest =>
      obind (column_record df column) (fun date_obj =>
      obind (statement_loop df rest) (fun result => Ok (date_obj :: result)))
  end.

Definition statement_records (financial_statement : pyobj)
  : outcome (list dict) :=
  match financial_statement with
  | OVal v => Err (AttributeError v "columns")
  | OFrame df => statement_loop df (columns df)
  end.

Definition get_financial_statement (ticker financial_type : string)
  : prog string :=
  _ <- ask (yf.Ticker ticker) ;;
  g <- check_isin ticker "getting financial statement" ;;
  match g with
  | Some s => Return s
  | None =>
      match select_statement financial_type with
      | None => Return (invalid_financial_type financial_type)
      | Some accessor =>
          financial_statement <- ask (yf.Attr accessor) ;;
          result <- lift (statement_records financial_statement) ;;
          lift (json.dumps L (PList (map PDict result)))
      end
  end.

(** *** get_holder_info (lines 392-404) *)
Definition get_holder_info (ticker : string) : prog string :=
  _ <- ask (yf.Ticker ticker) ;;
  g <- check_isin ticker "getting holder info" ;;
  match g with
  | Some s => Return s
  | None =>
      holders <- ask (yf.Attr yf.major_holders) ;;
      holders <- lift (reset_index "metric" holders) ;;
      lift (to_json L Epoch holders)
  end.

(** *** get_recommendations (lines 415-429) *)
Definition get_recommendations (ticker : string) : prog string :=
  _ <- ask (yf.Ticker ticker) ;;
  g <- check_isin ticker "getting recommendations" ;;
  match g with
  | Some s => Return s
  | None =>
      try_except
        (recommendations <- ask (yf.Attr yf.recommendations) ;;
         lift (to_json L Epoch recommendations))
        (fun e =>
           print (error_text "getting recommendations" ticker e) ;;
           Return (error_text "getting recommendations" ticker e))
  end.

(** The seven registered tools, by name. *)
Inductive tool : Type :=
| t_get_historical_stock_prices (period interval : string)
| t_get_stock_info
| t_get_yahoo_finance_news
| t_get_stock_actions
| t_get_financial_statement (financial_type : string)
| t_get_holder_info
| t_get_recommendations.

Definition call_tool (t : tool) (ticker : string) : prog string :=
  match t with
  | t_get_historical_stock_prices period interval =>
      get_historical_stock_prices ticker period interval
  | t_get_stock_info => get_stock_info ticker
  | t_get_yahoo_finance_news => get_yahoo_finance_news ticker
  | t_get_stock_actions => get_stock_actions ticker
  | t_get_financial_statement financial_type =>
      get_financial_statement ticker financial_type
  | t_get_holder_info => get_holder_info ticker
  | t_get_recommendations => get_recommendations ticker
  end.

End Server.

(** ** Vocabulary of the properties *)

(** The symbol resolves: the handle is built and the identifier lookup
    answers something other than [None]. *)
Definition resolves (w : world) (ticker : string) : Prop :=
  (exists h, w [] (yf.Ticker ticker) = Ok h) /\
  (exists v, w [Asked (yf.Ticker ticker)] (yf.Attr yf.isin) = Ok v
             /\ is_None v = false).

(** The past of a tool at its first data fetch, once the symbol has
    resolved. *)
Definition resolved (ticker : string) : list event :=
  [Asked (yf.Ticker ticker); Asked (yf.Attr yf.isin)].


(** The provider accessor that carries the name of a statement kind. *)
Definition matching_accessor (k : FinancialType.t) : yf.accessor :=
  match k with
  | FinancialType.income_stmt => yf.income_stmt
  | FinancialType.quarterly_income_stmt => yf.quarterly_income_stmt
  | FinancialType.balance_sheet => yf.balance_sheet
  | FinancialType.quarterly_balance_sheet => yf.quarterly_balance_sheet
  | FinancialType.cashflow => yf.cashflow
  | FinancialType.quarterly_cashflow => yf.quarterly_cashflow
  end.

Definition statement_kinds : list string :=
  map FinancialType.value FinancialType.all.
Definition holder_kinds : list string :=
  map HolderType.value HolderType.all.
Definition recommendation_kinds : list string :=
  map RecommendationType.value RecommendationType.all.

(** A result that reports a rejected parameter. *)
Definition validation_error (o : outcome string) : Prop :=
  exists msg, o = Ok msg /\ String.prefix "Error: invalid" msg = true.

(** *** The field projection in the words of the specification *)

(** A pair survives when its key is in the allow-list. *)
Definition allowed (kv : label * pyval) : bool := relevant (fst kv).

(** *** The column-major shape in the words of the specification *)

(** The value written for a cell: [null] for a missing marker. *)
Definition null_if_missing (x : scalar) : pyval :=
  if isna x then PNone else PScalar x.







(** The value a key holds after a sequence of writes: the last one. *)
Definition last_write (k : label) (writes : dict) : option pyval :=
  fold_left (fun acc '(k', v) => if label_eqb k k' then Some v else acc)
            writes None.

(** *** The row-major shape in the words of the specification *)

(** One record per row: the reserved key first, holding the row's
    label, then every column of the table. *)
Definition row_major (name : string) (df : DataFrame)
  : list (list (label * scalar)) :=
  map (fun '(i, r) =>
         (LStr name, scalar_of_label r)
         :: map (fun '(j, c) => (c, iat df i j)) (enumerate (columns df)))
      (enumerate (index df)).

(** JSON text, written out: an array of objects of [key:value]
    members, separated by commas and nothing else. *)
Definition json_member (key value : string) : string := key ++ ":" ++ value.
Definition json_object (members : list string) : string :=
  "{" ++ join "," members ++ "}".
Definition json_array (elements : list string) : string :=
  "[" ++ join "," elements ++ "]".





(** *** News items in the words of the specification *)

(** The value found by following keys through nested records; absent as
    soon as a key is missing or the value at hand is not a record. *)
Fixpoint lookup_path (v : pyval) (path : list string) : option pyval :=
  match path with
  | [] => Some v
  | k :: rest =>
      match v with
      | PDict d =>
          match dict_get (LStr k) d with
          | Some x => lookup_path x rest
          | None => None
          end
      | _ => None
      end
  end.

(** A field as text, the empty string when absent. *)
Definition field (L : Libs) (news : pyval) (path : list string) : string :=
  match lookup_path news path with
  | Some v => to_str L v
  | None => ""
  end.

Definition story (news : pyval) : bool :=
  match lookup_path news ["content"; "contentType"] with
  | Some v => eq_str v "STORY"
  | None => false
  end.

Definition text_block (L : Libs) (news : pyval) : string :=
  "Title: " ++ field L news ["content"; "title"] ++ nl ++
  "Summary: " ++ field L news ["content"; "summary"] ++ nl ++
  "Description: " ++ field L news ["content"; "description"] ++ nl ++
  "URL: " ++ field L news ["content"; "canonicalUrl"; "url"].

Definition is_dict (v : pyval) : bool :=
  match v with
  | PDict _ => true
  | _ => false
  end.

Definition dict_if_present (o : option pyval) : bool :=
  match o with
  | Some v => is_dict v
  | None => true
  end.

(** A news item is a record; its [content], when present, is a record;
    and for a story, so is [content.canonicalUrl] when present. *)
Definition news_item (news : pyval) : bool :=
  is_dict news
  && dict_if_present (lookup_path news ["content"])
  && (negb (story news)
      || dict_if_present (lookup_path news ["content"; "canonicalUrl"])).

(** ** Sample providers and tables *)

(** Encoders that print integers, strings and dates and write [null]
    for everything else. *)
Definition sample_libs : Libs := {|
  float_repr := fun _ => "0.0";
  json_quote := fun s => dq ++ s ++ dq;
  str_other := fun _ => "None";
  pd_cell := fun _ x =>
    match x with
    | SInt z => str_int z
    | SStr s => dq ++ s ++ dq
    | STs t => dq ++ strftime_Ymd t ++ dq
    | _ => "null"
    end;
  pd_key := fun _ k =>
    match k with
    | LStr s => dq ++ s ++ dq
    | LInt z => dq ++ str_int z ++ dq
    | LTs t => dq ++ strftime_Ymd t ++ dq
    end;
  to_utc := fun t => t;
  naive_Z := false
|}.

Definition on_day (y m d : N) : Timestamp := mkTimestamp y m d 0 None.

(** The float [n.0]. *)
Definition whole (n : positive) : scalar := SFloat (S754_finite false n 0).

Definition sample_prices : DataFrame := {|
  index := [LTs (on_day 2024 12 30); LTs (on_day 2024 12 31)];
  columns := [LStr "Open"; LStr "High"; LStr "Low"; LStr "Close";
              LStr "Volume"; LStr "Dividends"; LStr "Stock Splits"];
  iat := fun i j => SInt (Z.of_nat (100 * i + j))
|}.

Definition sample_actions : DataFrame := {|
  index := [LTs (on_day 2024 11 8)];
  columns := [LStr "Dividends"; LStr "Stock Splits"];
  iat := fun i j => SInt (Z.of_nat j)
|}.

Definition no_actions : DataFrame := {|
  index := [];
  columns := [LStr "Dividends"; LStr "Stock Splits"];
  iat := fun _ _ => SNone
|}.

Definition sample_statement : DataFrame := {|
  index := [LStr "Total Revenue"; LStr "Net Income"];
  columns := [LTs (on_day 2024 9 30); LTs (on_day 2023 9 30)];
  iat := fun i j =>
    match i, j with
    | 1, 1 => SFloat S754_nan
    | _, _ => whole (Pos.of_succ_nat (10 * i + j))
    end
|}.

(** A statement with a metric called [date]. *)
Definition statement_with_date_row : DataFrame := {|
  index := [LStr "date"];
  columns := [LTs (on_day 2024 9 30)];
  iat := fun _ _ => whole 7
|}.


(** A statement in which one column label occurs twice. *)
Definition statement_with_repeated_column : DataFrame := {|
  index := [LStr "Net Income"];
  columns := [LStr "TTM"; LStr "TTM"];
  iat := fun _ j => whole (Pos.of_succ_nat j)
|}.

Definition sample_holders : DataFrame := {|
  index := [LStr "insidersPercentHeld"; LStr "institutionsCount"];
  columns := [LStr "Value"];
  iat := fun i _ => SInt (Z.of_nat i)
|}.

Definition sample_info : dict :=
  [ (LStr "address1", PStr "One Apple Park Way");
    (LStr "symbol", PStr "AAPL");
    (LStr "marketCap", PScalar (SInt 3000000000000));
    (LStr "phone", PStr "(408) 996-1010");
    (LStr "currency", PStr "USD") ].

Definition sample_story : pyval :=
  PDict [ (LStr "id", PStr "a1");
          (LStr "content",
           PDict [ (LStr "contentType", PStr "STORY");
                   (LStr "title", PStr "Quarterly results");
                   (LStr "canonicalUrl",
                    PDict [ (LStr "url", PStr "https://example.com/a1") ]) ]) ].

Definition sample_video : pyval :=
  PDict [ (LStr "id", PStr "v1");
          (LStr "content",
           PDict [ (LStr "contentType", PStr "VIDEO");
                   (LStr "title", PStr "Market wrap") ]) ].

Definition bare_story : pyval :=
  PDict [ (LStr "content", PDict [ (LStr "contentType", PStr "STORY") ]) ].

(** A story whose [canonicalUrl] is present and null. *)
Definition story_null_url : pyval :=
  PDict [ (LStr "content",
           PDict [ (LStr "contentType", PStr "STORY");
                   (LStr "title", PStr "Quarterly results");
                   (LStr "canonicalUrl", PNone) ]) ].

(** An item whose [content] is present and null. *)
Definition item_null_content : pyval :=
  PDict [ (LStr "id", PStr "a2"); (LStr "content", PNone) ].

Definition symbol_of (past : list event) : string :=
  match past with
  | Asked (yf.Ticker ticker) :: _ => ticker
  | _ => ""
  end.

Definition rate_limit : exn :=
  Exception "YFRateLimitError"
    "Too Many Requests. Rate limited. Try after a while.".

(** A provider that knows AAPL in full and MSFT without stories, and
    answers [None] to the identifier lookup of anything else. *)
Definition market : world := fun past r =>
  match r with
  | yf.Ticker _ => Ok (OVal PNone)
  | yf.Attr yf.isin =>
      if String.eqb (symbol_of past) "AAPL" then Ok (OVal (PStr "US0378331005"))
      else if String.eqb (symbol_of past) "MSFT" then Ok (OVal (PStr "US5949181045"))
      else Ok (OVal PNone)
  | yf.Attr (yf.history _ _) => Ok (OFrame sample_prices)
  | yf.Attr yf.info => Ok (OVal (PDict sample_info))
  | yf.Attr yf.news =>
      if String.eqb (symbol_of past) "AAPL"
      then Ok (OVal (PList [sample_story; sample_video; bare_story]))
      else Ok (OVal (PList [sample_video]))
  | yf.Attr yf.actions =>
      if String.eqb (symbol_of past) "AAPL" then Ok (OFrame sample_actions)
      else Ok (OFrame no_actions)
  | yf.Attr yf.major_holders => Ok (OFrame sample_holders)
  | yf.Attr yf.recommendations => Ok (OFrame sample_holders)
  | yf.Attr _ => Ok (OFrame sample_statement)
  end.

(** A provider like [market] whose news for every symbol is [news]. *)
Definition with_news (news : pyval) : world := fun past r =>
  match r with
  | yf.Attr yf.news => Ok (OVal news)
  | _ => market past r
  end.

Definition asked_news (past : list event) : bool :=
  existsb (fun e => match e with
                    | Asked (yf.Attr yf.news) => true
                    | _ => false
                    end) past.

(** A provider that resolves every symbol and then fails every fetch
    with a rate-limit error, except the first read of the news. *)
Definition rate_limited : world := fun past r =>
  match r with
  | yf.Ticker _ => Ok (OVal PNone)
  | yf.Attr yf.isin => Ok (OVal (PStr "US0378331005"))
  | yf.Attr yf.news =>
      if asked_news past then Err rate_limit else Ok (OVal (PList []))
  | yf.Attr _ => Err rate_limit
  end.

(** ** The unregistered variants of two tools

    [get_historical_stock_prices_mod] (lines 102-132) and
    [get_financial_statement_mod] (lines 353-380) follow the tools of the
    same name but hand back the table itself, where the tools return its
    text.  Their result is a string on the early exits and the provider's
    object otherwise. *)

Definition get_historical_stock_prices_mod (ticker period interval : string)
  : prog pyobj :=
  (_ <- ask (yf.Ticker ticker) ;;
   g <- check_isin ticker "getting historical stock prices" ;;
   match g with
   | Some s => Return (OVal (PStr s))
   | None =>
       hist_data <- ask (yf.Attr (yf.history period interval)) ;;
       lift (reset_index "Date" hist_data)
   end)%prog.

Definition get_financial_statement_mod (enum_fmt : enum_format)
  (ticker financial_type : string) : prog pyobj :=
  (_ <- ask (yf.Ticker ticker) ;;
   g <- check_isin ticker "getting financial statement" ;;
   match g with
   | Some s => Return (OVal (PStr s))
   | None =>
       match select_statement financial_type with
       | None =>
           Return (OVal (PStr (invalid_financial_type enum_fmt financial_type)))
       | Some accessor => ask (yf.Attr accessor)
       end
   end)%prog.

(** ** Vocabulary of the further properties *)

(** The words each tool puts in its error lines. *)
Definition action_of (t : tool) : string :=
  match t with
  | t_get_historical_stock_prices _ _ => "getting historical stock prices"
  | t_get_stock_info => "getting stock information"
  | t_get_yahoo_finance_news => "getting news"
  | t_get_stock_actions => "getting stock actions"
  | t_get_financial_statement _ => "getting financial statement"
  | t_get_holder_info => "getting holder info"
  | t_get_recommendations => "getting recommendations"
  end.

(** The lines a call printed, in order. *)
Definition printed (tr : list event) : list string :=
  flat_map (fun e => match e with Printed line => [line] | Asked _ => [] end)
           tr.

(** The data reads of a tool, in the order the source makes them. *)
Definition fetches (t : tool) : list yf.request :=
  match t with
  | t_get_historical_stock_prices period interval =>
      [yf.Attr (yf.history period interval)]
  | t_get_stock_info => [yf.Attr yf.info]
  | t_get_yahoo_finance_news => [yf.Attr yf.news; yf.Attr yf.news]
  | t_get_stock_actions => [yf.Attr yf.actions]
  | t_get_financial_statement financial_type =>
      match select_statement financial_type with
      | Some accessor => [yf.Attr accessor]
      | None => []
      end
  | t_get_holder_info => [yf.Attr yf.major_holders]
  | t_get_recommendations => [yf.Attr yf.recommendations]
  end.

(** Everything a tool may ask, in order: the handle, the identifier
    lookup (not in [get_stock_actions]), then its data reads. *)
Definition script (t : tool) (ticker : string) : list yf.request :=
  yf.Ticker ticker
  :: match t with
     | t_get_stock_actions => fetches t
     | _ => yf.Attr yf.isin :: fetches t
     end.

(** A value that is neither NaN nor NaT. *)
Definition not_nan (v : pyval) : bool :=
  match v with
  | PScalar (SFloat S754_nan) | PScalar SNaT => false
  | _ => true
  end.

(** A cell [json.dumps] can print once missing markers are replaced: any
    scalar but a timestamp. *)
Definition printable_cell (x : scalar) : bool :=
  match x with
  | STs _ => false
  | _ => true
  end.

(** A label [json.dumps] accepts as a key. *)
Definition printable_key (k : label) : bool :=
  match k with
  | LTs _ => false
  | _ => true
  end.

(** A provider that fails to build the handle. *)
Definition offline : world := fun _ _ =>
  Err (Exception "ConnectionError" "Network is unreachable").

(** A provider whose identifier lookup raises and whose other answers
    are those of [market]. *)
Definition lookup_fails : world := fun past r =>
  match r with
  | yf.Attr yf.isin => Err rate_limit
  | _ => market past r
  end.

(** A provider like [market] whose news cannot be read. *)
Definition news_down : world := fun past r =>
  match r with
  | yf.Attr yf.news => Err rate_limit
  | _ => market past r
  end.

(** A provider like [market] whose recommendations are not a table. *)
Definition no_recommendations : world := fun past r =>
  match r with
  | yf.Attr yf.recommendations => Ok (OVal PNone)
  | _ => market past r
  end.

(** The text [get_recommendations] returns for a table: one object per
    row, holding the columns only. *)
Definition columns_text (L : Libs) (df : DataFrame) : string :=
  json_array
    (map (fun i =>
            json_object
              (map (fun '(j, c) =>
                      json_member (key_text L Epoch c)
                                  (cell_text L Epoch (iat df i j)))
                   (enumerate (columns df))))
         (seq 0 (length (index df)))).

(** The text [get_holder_info] returns for a table: one object per row,
    the key ["metric"] first with the row label, then the columns. *)
Definition holders_text (L : Libs) (df : DataFrame) : string :=
  json_array
    (map (fun '(i, r) =>
            json_object
              (json_member (dq ++ "metric" ++ dq)
                           (cell_text L Epoch (scalar_of_label r))
               :: map (fun '(j, c) =>
                         json_member (key_text L Epoch c)
                                     (cell_text L Epoch (iat df i j)))
                      (enumerate (columns df))))
         (enumerate (index df))).

(** A record of the statement loop as the source means it: the [date]
    entry first, no key twice, and no NaN or NaT among the values. *)
Definition clean_record (r : dict) : bool :=
  match r with
  | (LStr "date", _) :: _ =>
      unique (keys r) && forallb (fun kv => not_nan (snd kv)) r
  | _ => false
  end.

(** A value [json.dumps] prints: a scalar that is neither a timestamp
    nor NaT. *)
Definition printable_value (v : pyval) : bool :=
  match v with
  | PScalar (STs _) | PScalar SNaT => false
  | PScalar _ => true
  | _ => false
  end.

Definition printable_member (kv : label * pyval) : bool :=
  printable_key (fst kv) && printable_value (snd kv).

(** What [get_financial_statement] makes of the provider's answer. *)
Definition statement_text (L : Libs) (o : pyobj) : outcome string :=
  obind (statement_records o)
        (fun result => json.dumps L (PList (map PDict result))).

(** * Properties *)

Open Scope list_scope.

(** ** Evaluations on the sample provider *)

Example strftime_sample : strftime_Ymd (on_day 2024 9 30) = "2024-09-30"%string.
Proof. reflexivity. Qed.

Example unknown_symbol_info :
  invoke market (get_stock_info sample_libs "INVALIDTICKERXYZ")
  = ([ Asked (yf.Ticker "INVALIDTICKERXYZ"); Asked (yf.Attr yf.isin);
       Printed "Company ticker INVALIDTICKERXYZ not found." ],
     Ok "Company ticker INVALIDTICKERXYZ not found."%string).
Proof. reflexivity. Qed.

Example invalid_kind_by_value :
  snd (invoke market
         (get_financial_statement sample_libs ByValue "AAPL" "income"))
  = Ok "Error: invalid financial type income. Please use one of the following: income_stmt, quarterly_income_stmt, balance_sheet, quarterly_balance_sheet, cashflow, quarterly_cashflow."%string.
Proof. reflexivity. Qed.

Example invalid_kind_by_name :
  snd (invoke market
         (get_financial_statement sample_libs ByName "AAPL" "income"))
  = Ok "Error: invalid financial type income. Please use one of the following: FinancialType.income_stmt, FinancialType.quarterly_income_stmt, FinancialType.balance_sheet, FinancialType.quarterly_balance_sheet, FinancialType.cashflow, FinancialType.quarterly_cashflow."%string.
Proof. reflexivity. Qed.

Example failed_lookup_reported :
  invoke (fun past r =>
            match r with
            | yf.Ticker _ => Ok (OVal PNone)
            | _ => Err rate_limit
            end)
         (get_holder_info sample_libs "AAPL")
  = ([ Asked (yf.Ticker "AAPL"); Asked (yf.Attr yf.isin);
       Printed "Error: getting holder info for AAPL: Too Many Requests. Rate limited. Try after a while." ],
     Ok "Error: getting holder info for AAPL: Too Many Requests. Rate limited. Try after a while."%string).
Proof. reflexivity. Qed.

Example actions_AAPL_trace :
  fst (invoke market (get_stock_actions sample_libs "AAPL"))
  = [Asked (yf.Ticker "AAPL"); Asked (yf.Attr yf.actions)].
Proof. reflexivity. Qed.

(** ** Keys and dictionaries *)

Lemma option_eqb_eq (a b : option string) :
  option_eqb String.eqb a b = true <-> a = b.
Proof.
  destruct a as [x|], b as [y|]; simpl; split; intro H;
    try discriminate; try reflexivity.
  - apply String.eqb_eq in H. now subst.
  - injection H as ->. apply String.eqb_refl.
Qed.

Lemma Timestamp_eqb_eq (a b : Timestamp) : Timestamp_eqb a b = true <-> a = b.
Proof.
  unfold Timestamp_eqb. destruct a, b; simpl.
  rewrite !andb_true_iff, !N.eqb_eq, option_eqb_eq.
  split.
  - intros [[[[-> ->] ->] ->] ->]. reflexivity.
  - intros H. injection H as -> -> -> -> ->. repeat split.
Qed.

Lemma label_eqb_eq (a b : label) : label_eqb a b = true <-> a = b.
Proof.
  destruct a, b; simpl; split; intro H; try discriminate.
  - apply String.eqb_eq in H. now subst.
  - injection H as ->. apply String.eqb_refl.
  - apply Z.eqb_eq in H. now subst.
  - injection H as ->. apply Z.eqb_refl.
  - apply Timestamp_eqb_eq in H. now subst.
  - injection H as ->. now apply Timestamp_eqb_eq.
Qed.

Lemma label_eqb_refl (a : label) : label_eqb a a = true.
Proof. now apply label_eqb_eq. Qed.

Lemma label_eqb_neq (a b : label) : label_eqb a b = false <-> a <> b.
Proof.
  rewrite <- label_eqb_eq. destruct (label_eqb a b); split; congruence.
Qed.

Lemma mem_In (k : label) (l : list label) : mem k l = true <-> In k l.
Proof.
  induction l as [|k' l IH]; simpl.
  - split; [discriminate | tauto].
  - rewrite orb_true_iff, IH, label_eqb_eq. split; intros [H|H]; auto.
Qed.

Lemma mem_app (k : label) (l l' : list label) :
  mem k (l ++ l') = mem k l || mem k l'.
Proof.
  induction l as [|x l IH]; simpl; [reflexivity|].
  now rewrite IH, orb_assoc.
Qed.

Lemma unique_NoDup (l : list label) : unique l = true <-> NoDup l.
Proof.
  induction l as [|k l IH]; simpl.
  - split; [constructor | reflexivity].
  - rewrite andb_true_iff, negb_true_iff, IH. split.
    + intros [Hk Hl]. constructor; [|assumption].
      rewrite <- mem_In. congruence.
    + intros H. inversion H as [|? ? Hk Hl]; subst. split; [|assumption].
      destruct (mem k l) eqn:E; [|reflexivity].
      apply mem_In in E. contradiction.
Qed.

(** Writing a key that is not there yet appends it. *)
Lemma dict_set_fresh (k : label) (v : pyval) (d : dict) :
  mem k (keys d) = false -> dict_set k v d = d ++ [(k, v)].
Proof.
  induction d as [|[k' v'] d IH]; simpl; [reflexivity|].
  intros H. apply orb_false_iff in H as [Hk Hd].
  rewrite Hk, IH by assumption. reflexivity.
Qed.

(** Writing never adds a second copy of a key. *)
Lemma keys_dict_set (k : label) (v : pyval) (d : dict) :
  keys (dict_set k v d) = if mem k (keys d) then keys d else keys d ++ [k].
Proof.
  induction d as [|[k' v'] d IH]; simpl; [reflexivity|].
  destruct (label_eqb k k') eqn:E; simpl; [reflexivity|].
  rewrite IH. now destruct (mem k (keys d)).
Qed.

Lemma unique_snoc (l : list label) (k : label) :
  unique l = true -> mem k l = false -> unique (l ++ [k]) = true.
Proof.
  rewrite !unique_NoDup. intros Hl Hk.
  apply NoDup_app; [assumption | repeat constructor; simpl; tauto |].
  intros x Hx [<-|[]]. apply mem_In in Hx. congruence.
Qed.

Lemma unique_dict_set (k : label) (v : pyval) (d : dict) :
  unique (keys d) = true -> unique (keys (dict_set k v d)) = true.
Proof.
  intros H. rewrite keys_dict_set.
  destruct (mem k (keys d)) eqn:E; [assumption|].
  now apply unique_snoc.
Qed.

Lemma dict_get_set (k k' : label) (v : pyval) (d : dict) :
  dict_get k (dict_set k' v d)
  = if label_eqb k k' then Some v else dict_get k d.
Proof.
  induction d as [|[k0 v0] d IH]; simpl.
  - reflexivity.
  - destruct (label_eqb k' k0) eqn:E0; simpl.
    + apply label_eqb_eq in E0; subst k0.
      now destruct (label_eqb k k').
    + rewrite IH. destruct (label_eqb k k0) eqn:E1; [|reflexivity].
      apply label_eqb_eq in E1; subst k0.
      destruct (label_eqb k k') eqn:E2; [|reflexivity].
      apply label_eqb_eq in E2; subst k'. rewrite label_eqb_refl in E0.
      discriminate.
Qed.

(** A run of writes with pairwise new keys appends them in order. *)
Lemma fold_dict_set_fresh (ws acc : dict) :
  unique (keys acc ++ keys ws) = true ->
  fold_left (fun d '(k, v) => dict_set k v d) ws acc = acc ++ ws.
Proof.
  revert acc. induction ws as [|[k v] ws IH]; intros acc H; simpl.
  - now rewrite app_nil_r.
  - assert (Hk : mem k (keys acc) = false).
    { apply unique_NoDup in H. apply NoDup_remove_2 in H.
      destruct (mem k (keys acc)) eqn:E; [|reflexivity].
      apply mem_In in E. exfalso. apply H. apply in_or_app. now left. }
    rewrite dict_set_fresh by assumption.
    rewrite IH.
    + now rewrite <- app_assoc.
    + unfold keys in *. rewrite map_app. simpl in *.
      now rewrite <- app_assoc.
Qed.

(** ** Running the tools *)

Lemma run_ask {A} (w : world) (past : list event) (r : yf.request)
  (f : pyobj -> prog A) :
  run w past (bind (ask r) f)
  = match w past r with
    | Ok v => run w (past ++ [Asked r]) (f v)
    | Err e => (past ++ [Asked r], Err e)
    end.
Proof. simpl. now destruct (w past r). Qed.

Lemma run_lift {A B} (w : world) (past : list event) (o : outcome A)
  (f : A -> prog B) :
  run w past (bind (lift o) f)
  = match o with
    | Ok a => run w past (f a)
    | Err e => (past, Err e)
    end.
Proof. now destruct o. Qed.

Lemma run_lift_end {A} (w : world) (past : list event) (o : outcome A) :
  run w past (lift o) = (past, o).
Proof. now destruct o. Qed.

Lemma run_lift_lift {A B} (w : world) (past : list event) (o : outcome A)
  (g : A -> outcome B) :
  run w past (bind (lift o) (fun a => lift (g a))) = (past, obind o g).
Proof. destruct o; simpl; [apply run_lift_end | reflexivity]. Qed.

(** The three ways through the resolution block. *)
Lemma run_check_isin {A} (w : world) (past : list event)
  (ticker action : string) (f : option string -> prog A) :
  run w past (bind (check_isin ticker action) f)
  = match w past (yf.Attr yf.isin) with
    | Ok v =>
        if is_None v
        then run w (past ++ [Asked (yf.Attr yf.isin)]
                         ++ [Printed (not_found ticker)])
                 (f (Some (not_found ticker)))
        else run w (past ++ [Asked (yf.Attr yf.isin)]) (f None)
    | Err e =>
        run w (past ++ [Asked (yf.Attr yf.isin)]
                    ++ [Printed (error_text action ticker e)])
            (f (Some (error_text action ticker e)))
    end.
Proof.
  unfold check_isin. simpl.
  destruct (w past (yf.Attr yf.isin)) as [v|e]; simpl.
  - destruct (is_None v); simpl; now rewrite <- ?app_assoc.
  - now rewrite <- app_assoc.
Qed.

(** Once the symbol resolves, a tool that begins with the handle and the
    resolution block continues with its fetch, having printed nothing. *)
Lemma run_resolved {A} (w : world) (ticker action : string)
  (f : option string -> prog A) :
  resolves w ticker ->
  invoke w (bind (ask (yf.Ticker ticker))
              (fun _ => bind (check_isin ticker action) f))
  = run w (resolved ticker) (f None).
Proof.
  intros [[h Hh] [v [Hv Hn]]]. unfold invoke.
  rewrite run_ask, Hh. simpl app.
  rewrite run_check_isin, Hv, Hn. reflexivity.
Qed.

(** When the identifier lookup answers [None], a tool that begins with
    the handle and the resolution block prints and returns the
    not-found line, and asks the provider nothing more. *)
Lemma run_unresolved {A} (w : world) (ticker action : string)
  (f : option string -> prog A) h :
  w [] (yf.Ticker ticker) = Ok h ->
  w [Asked (yf.Ticker ticker)] (yf.Attr yf.isin) = Ok (OVal PNone) ->
  invoke w (bind (ask (yf.Ticker ticker))
              (fun _ => bind (check_isin ticker action) f))
  = run w (resolved ticker ++ [Printed (not_found ticker)])
        (f (Some (not_found ticker))).
Proof.
  intros Hh Hv. unfold invoke.
  rewrite run_ask, Hh. simpl app.
  rewrite run_check_isin, Hv. reflexivity.
Qed.

(** Every tool but [get_stock_actions] answers an unresolved symbol
    with the not-found line before any fetch. *)
Lemma unresolved_not_found (L : Libs) (how : enum_format) (w : world)
  (t : tool) (ticker : string) h :
  t <> t_get_stock_actions ->
  w [] (yf.Ticker ticker) = Ok h ->
  w [Asked (yf.Ticker ticker)] (yf.Attr yf.isin) = Ok (OVal PNone) ->
  invoke w (call_tool L how t ticker)
  = (resolved ticker ++ [Printed (not_found ticker)],
     Ok (not_found ticker)).
Proof.
  intros Ht Hh Hv.
  destruct t; try congruence; unfold call_tool;
    [ unfold get_historical_stock_prices
    | unfold get_stock_info
    | unfold get_yahoo_finance_news
    | unfold get_financial_statement
    | unfold get_holder_info
    | unfold get_recommendations ];
    now rewrite (run_unresolved _ _ _ _ _ Hh Hv).
Qed.

(** When the identifier lookup itself raises, the same six tools return
    their own error line. *)
Lemma failed_resolution_reported (L : Libs) (how : enum_format) (w : world)
  (t : tool) (ticker : string) h e :
  t <> t_get_stock_actions ->
  w [] (yf.Ticker ticker) = Ok h ->
  w [Asked (yf.Ticker ticker)] (yf.Attr yf.isin) = Err e ->
  exists line,
    String.prefix "Error: " line = true /\
    invoke w (call_tool L how t ticker)
    = (resolved ticker ++ [Printed line], Ok line).
Proof.
  intros Ht Hh Hv.
  destruct t; try congruence; unfold call_tool, invoke;
    [ unfold get_historical_stock_prices
    | unfold get_stock_info
    | unfold get_yahoo_finance_news
    | unfold get_financial_statement
    | unfold get_holder_info
    | unfold get_recommendations ];
    rewrite run_ask, Hh; simpl app; rewrite run_check_isin, Hv;
    eexists; (split; [|reflexivity]); reflexivity.
Qed.

(** X16.  After resolution, an exception raised by the data read of
    [get_historical_stock_prices], [get_stock_info],
    [get_financial_statement] or [get_holder_info] leaves the tool as it
    is: these reads stand outside every [try]. *)
Lemma fetch_exception_propagates (L : Libs) (how : enum_format) (w : world)
  (ticker period interval : string) (k : FinancialType.t) (e : exn) :
  resolves w ticker ->
  (w (resolved ticker) (yf.Attr (yf.history period interval)) = Err e ->
   snd (invoke w (get_historical_stock_prices L ticker period interval))
   = Err e)
  /\ (w (resolved ticker) (yf.Attr yf.info) = Err e ->
      snd (invoke w (get_stock_info L ticker)) = Err e)
  /\ (w (resolved ticker) (yf.Attr (matching_accessor k)) = Err e ->
      snd (invoke w (get_financial_statement L how ticker
                       (FinancialType.value k))) = Err e)
  /\ (w (resolved ticker) (yf.Attr yf.major_holders) = Err e ->
      snd (invoke w (get_holder_info L ticker)) = Err e).
Proof.
  intros Hr. repeat split; intros Hw.
  - unfold get_historical_stock_prices.
    rewrite run_resolved by assumption. now rewrite run_ask, Hw.
  - unfold get_stock_info.
    rewrite run_resolved by assumption. now rewrite run_ask, Hw.
  - unfold get_financial_statement.
    rewrite run_resolved by assumption.
    replace (select_statement (FinancialType.value k))
      with (Some (matching_accessor k)) by now destruct k.
    now rewrite run_ask, Hw.
  - unfold get_holder_info.
    rewrite run_resolved by assumption. now rewrite run_ask, Hw.
Qed.

(** [get_recommendations] wraps its fetch: once the handle is built it
    returns a string whatever the provider does. *)
Lemma recommendations_returns_string (L : Libs) (w : world)
  (ticker : string) h :
  w [] (yf.Ticker ticker) = Ok h ->
  exists s, snd (invoke w (get_recommendations L ticker)) = Ok s.
Proof.
  intros Hh. unfold get_recommendations, invoke.
  rewrite run_ask, Hh. simpl app. rewrite run_check_isin.
  destruct (w [Asked (yf.Ticker ticker)] (yf.Attr yf.isin)) as [v|e];
    [destruct (is_None v)|]; try (eexists; reflexivity).
  simpl.
  destruct (w _ (yf.Attr yf.recommendations)) as [r|e]; simpl;
    [destruct (to_json L Epoch r)|]; eexists; reflexivity.
Qed.

(** C1.  With a provider that resolves the symbol and then fails the
    fetch with a rate-limit error, six of the seven tools let the
    provider's exception escape instead of returning a string; only
    [get_recommendations], which wraps its fetch in a [try], returns an
    error line. *)
Theorem fetch_failure_escapes (L : Libs) (how : enum_format) :
  snd (invoke rate_limited
         (get_historical_stock_prices L "AAPL" "1mo" "1d")) = Err rate_limit
  /\ snd (invoke rate_limited (get_stock_info L "AAPL")) = Err rate_limit
  /\ snd (invoke rate_limited (get_yahoo_finance_news L "AAPL"))
     = Err rate_limit
  /\ snd (invoke rate_limited (get_stock_actions L "AAPL")) = Err rate_limit
  /\ snd (invoke rate_limited
            (get_financial_statement L how "AAPL" "income_stmt"))
     = Err rate_limit
  /\ snd (invoke rate_limited (get_holder_info L "AAPL")) = Err rate_limit
  /\ snd (invoke rate_limited (get_recommendations L "AAPL"))
     = Ok (error_text "getting recommendations" "AAPL" rate_limit).
Proof. repeat split. Qed.

(** C2.  For a symbol whose identifier lookup answers [None],
    [get_stock_actions] never consults the identifier: it fetches the
    corporate actions and returns their encoding (here the empty array)
    instead of the not-found line. *)
Theorem stock_actions_skips_resolution (L : Libs) :
  invoke market (get_stock_actions L "INVALIDTICKERXYZ")
  = ([Asked (yf.Ticker "INVALIDTICKERXYZ"); Asked (yf.Attr yf.actions)],
     Ok "[]"%string)
  /\ market [Asked (yf.Ticker "INVALIDTICKERXYZ")] (yf.Attr yf.isin)
     = Ok (OVal PNone)
  /\ Ok "[]"%string <> Ok (not_found "INVALIDTICKERXYZ").
Proof. repeat split. discriminate. Qed.

(** ** The statement selector *)







(** The chain of comparisons picks the accessor of the same name. *)
Lemma select_statement_value (k : FinancialType.t) :
  select_statement (FinancialType.value k) = Some (matching_accessor k).
Proof. now destruct k. Qed.

Lemma select_statement_illegal (s : string) :
  legal statement_kinds s = false -> select_statement s = None.
Proof.
  unfold legal, statement_kinds, select_statement. simpl.
  intros H. repeat (apply orb_false_iff in H as [-> H]). reflexivity.
Qed.


Lemma run_statement_illegal (L : Libs) (how : enum_format) (w : world)
  (ticker s : string) :
  resolves w ticker -> legal statement_kinds s = false ->
  invoke w (get_financial_statement L how ticker s)
  = (resolved ticker, Ok (invalid_financial_type how s)).
Proof.
  intros Hr Hs. unfold get_financial_statement.
  rewrite run_resolved by assumption.
  now rewrite select_statement_illegal.
Qed.


Lemma market_resolves_AAPL : resolves market "AAPL".
Proof.
  split; [now exists (OVal PNone)|].
  exists (OVal (PStr "US0378331005")). now split.
Defined.


(** ** Enumerated parameters *)

(** X15.  On a resolved symbol, [get_financial_statement] answers
    every value outside its six kinds with a validation-error string,
    and [get_holder_info] and [get_recommendations], which take the
    ticker alone, always go on to read [major_holders], respectively
    [recommendations], and ask nothing else. *)
Theorem statement_kind_validated (L : Libs) (how : enum_format) (w : world)
  (ticker : string) :
  resolves w ticker ->
  (forall v, legal statement_kinds v = false ->
     validation_error
       (snd (invoke w (get_financial_statement L how ticker v))))
  /\ requests (fst (invoke w (get_holder_info L ticker)))
     = [yf.Ticker ticker; yf.Attr yf.isin; yf.Attr yf.major_holders]
  /\ requests (fst (invoke w (get_recommendations L ticker)))
     = [yf.Ticker ticker; yf.Attr yf.isin; yf.Attr yf.recommendations].
Proof.
  intros Hr. split; [|split].
  - intros v Hv. rewrite run_statement_illegal by assumption.
    exists (invalid_financial_type how v). split; reflexivity.
  - unfold get_holder_info. rewrite run_resolved by assumption.
    rewrite run_ask.
    destruct (w (resolved ticker) (yf.Attr yf.major_holders)) as [v|e];
      [|reflexivity].
    rewrite run_lift. destruct (reset_index "metric" v); [|reflexivity].
    now rewrite run_lift_end.
  - unfold get_recommendations. rewrite run_resolved by assumption.
    simpl.
    destruct (w (resolved ticker) (yf.Attr yf.recommendations)) as [v|e];
      [|reflexivity].
    simpl. destruct (to_json L Epoch v); reflexivity.
Qed.

Lemma statement_kind_validated_witness :
  resolves market "AAPL"
  /\ validation_error
       (snd (invoke market
               (get_financial_statement sample_libs ByValue "AAPL" "")))
  /\ requests (fst (invoke market (get_holder_info sample_libs "AAPL")))
     = [yf.Ticker "AAPL"; yf.Attr yf.isin; yf.Attr yf.major_holders].
Proof.
  split; [exact market_resolves_AAPL|].
  destruct (statement_kind_validated sample_libs ByValue market "AAPL"
              market_resolves_AAPL) as [Hv [Hh _]].
  split; [exact (Hv ""%string eq_refl) | exact Hh].
Defined.


(** ** The column-major normalizer *)







(** The writes of one column, as a plain run of dictionary updates. *)
Lemma fill_writes (items : list (label * scalar)) (date_obj : dict) :
  fill date_obj items
  = fold_left (fun d '(k, v) => dict_set k v d)
      (map (fun '(metric, x) => (metric, null_if_missing x)) items) date_obj.
Proof.
  unfold fill. revert date_obj.
  induction items as [|[k x] items IH]; intros d; simpl;
    [reflexivity | apply IH].
Qed.

Lemma keys_writes (items : list (label * scalar)) :
  keys (map (fun '(metric, x) => (metric, null_if_missing x)) items)
  = map fst items.
Proof.
  unfold keys. rewrite map_map. apply map_ext. now intros [k x].
Qed.

Lemma count_absent (c : label) (l : list label) :
  mem c l = false -> count c l = 0.
Proof.
  induction l as [|x l IH]; simpl; [reflexivity|].
  intros H. apply orb_false_iff in H as [-> H]. now rewrite IH.
Qed.

Lemma count_app (c : label) (l l' : list label) :
  count c (l ++ l') = count c l + count c l'.
Proof.
  induction l as [|x l IH]; simpl; [reflexivity|].
  rewrite IH. lia.
Qed.

Lemma position_app_absent (c : label) (l l' : list label) :
  mem c l = false ->
  position c (l ++ l') = option_map (Nat.add (length l)) (position c l').
Proof.
  induction l as [|x l IH]; simpl.
  - intros _. now destruct (position c l').
  - intros H. apply orb_false_iff in H as [-> H]. rewrite IH by assumption.
    now destruct (position c l').
Qed.

Lemma unique_middle (pre rest : list label) (c : label) :
  unique (pre ++ c :: rest) = true ->
  mem c pre = false /\ mem c rest = false.
Proof.
  rewrite unique_NoDup. intros H. apply NoDup_remove_2 in H.
  split.
  - destruct (mem c pre) eqn:E; [|reflexivity].
    apply mem_In in E. exfalso. apply H, in_or_app. now left.
  - destruct (mem c rest) eqn:E; [|reflexivity].
    apply mem_In in E. exfalso. apply H, in_or_app. now right.
Qed.

(** With unique column labels, selecting by label finds the column at
    its own position. *)
Lemma column_items_unique (df : DataFrame) (pre rest : list label)
  (c : label) :
  columns df = pre ++ c :: rest -> unique (columns df) = true ->
  column_items df c = Ok (series df (length pre)).
Proof.
  intros Hc Hu. unfold column_items. rewrite Hc in *.
  destruct (unique_middle _ _ _ Hu) as [Hpre Hrest].
  rewrite position_app_absent by assumption. simpl.
  rewrite label_eqb_refl. simpl. rewrite Nat.add_0_r.
  rewrite count_app. simpl. rewrite label_eqb_refl.
  now rewrite !count_absent by assumption.
Qed.







(** ** Records are maps: the last write wins *)

Lemma fold_dict_set_last (ws acc : dict) :
  unique (keys acc) = true ->
  unique (keys (fold_left (fun d '(k, v) => dict_set k v d) ws acc)) = true
  /\ forall k,
       dict_get k (fold_left (fun d '(k, v) => dict_set k v d) ws acc)
       = fold_left (fun a '(k', v) => if label_eqb k k' then Some v else a)
           ws (dict_get k acc).
Proof.
  revert acc. induction ws as [|[k' v] ws IH]; intros acc Hu; simpl.
  - now split.
  - destruct (IH (dict_set k' v acc) (unique_dict_set k' v acc Hu))
      as [Hu' Hget].
    split; [exact Hu'|]. intros k. now rewrite Hget, dict_get_set.
Qed.

(** The last write to a key decides what [last_write] reports. *)
Lemma last_write_decided (k : label) (v : pyval) (pre post : dict) :
  mem k (keys post) = false ->
  last_write k (pre ++ (k, v) :: post) = Some v.
Proof.
  intros Hpost. unfold last_write. rewrite fold_left_app. simpl.
  rewrite label_eqb_refl.
  generalize dependent post. intros post. generalize (Some v) as a.
  induction post as [|[k' v'] post IH]; intros a H; simpl; [reflexivity|].
  simpl in H. apply orb_false_iff in H as [-> H]. now apply IH.
Qed.

Lemma fill_last_write (date_str : string) (items : list (label * scalar)) :
  unique (keys (fill [(LStr "date", PStr date_str)] items)) = true
  /\ forall k,
       dict_get k (fill [(LStr "date", PStr date_str)] items)
       = last_write k
           ((LStr "date", PStr date_str)
            :: map (fun '(metric, x) => (metric, null_if_missing x)) items).
Proof.
  rewrite fill_writes.
  destruct (fold_dict_set_last
              (map (fun '(metric, x) => (metric, null_if_missing x)) items)
              [(LStr "date", PStr date_str)] eq_refl) as [Hu Hget].
  split; [exact Hu|]. intros k. rewrite Hget. reflexivity.
Qed.

(** Every record of the statement loop is [date_obj] after the writes
    of one column. *)
Lemma statement_loop_fills (df : DataFrame) (cols : list label)
  (recs : list dict) :
  statement_loop df cols = Ok recs ->
  Forall (fun r => exists column items,
            column_items df column = Ok items
            /\ r = fill [(LStr "date", PStr (column_date column))] items)
         recs.
Proof.
  revert recs. induction cols as [|c cols IH]; intros recs H; simpl in H.
  - injection H as <-. constructor.
  - unfold column_record in H.
    destruct (column_items df c) as [items|e] eqn:Hc; [|discriminate].
    simpl in H.
    destruct (statement_loop df cols) as [rest|e]; [|discriminate].
    simpl in H. injection H as <-. constructor.
    + now exists c, items.
    + now apply IH.
Qed.

(** C10.  Each record of [get_financial_statement] is [date_obj] after
    the writes of one column: the [date] entry first, then one write per
    row.  It is one map: its keys are pairwise distinct, and every key
    holds the value written to it last.  So a row whose name occurs again
    further down is overwritten by the later row, a row named [date]
    overwrites the reserved [date] entry, and [date] keeps the formatted
    column key only when no row carries that name. *)
Theorem record_last_write_wins (df : DataFrame) (date_str : string)
  (items : list (label * scalar)) :
  let date_obj := fill [(LStr "date", PStr date_str)] items in
  (forall recs,
     statement_records (OFrame df) = Ok recs ->
     Forall (fun r => exists column items',
               column_items df column = Ok items'
               /\ r = fill [(LStr "date", PStr (column_date column))] items')
            recs)
  /\ unique (keys date_obj) = true
  /\ (forall k,
        dict_get k date_obj
        = last_write k
            ((LStr "date", PStr date_str)
             :: map (fun '(metric, x) => (metric, null_if_missing x)) items))
  /\ (forall pre metric x post,
        items = pre ++ (metric, x) :: post ->
        mem metric (map fst post) = false ->
        dict_get metric date_obj = Some (null_if_missing x))
  /\ (mem (LStr "date") (map fst items) = false ->
      dict_get (LStr "date") date_obj = Some (PStr date_str)).
Proof.
  intros date_obj. subst date_obj.
  destruct (fill_last_write date_str items) as [Hu Hget].
  split; [intros recs; apply statement_loop_fills|].
  split; [exact Hu|]. split; [exact Hget|]. split.
  - intros pre metric x post -> Hpost. rewrite Hget, map_app. simpl map.
    apply (last_write_decided metric (null_if_missing x)
             ((LStr "date", PStr date_str)
              :: map (fun '(m, y) => (m, null_if_missing y)) pre)).
    now rewrite keys_writes.
  - intros Hd. rewrite Hget.
    apply (last_write_decided (LStr "date") (PStr date_str) []).
    now rewrite keys_writes.
Qed.

Lemma record_last_write_wins_witness :
  dict_get (LStr "Total Revenue")
    (fill [(LStr "date", PStr "2024-09-30")]
       [ (LStr "Total Revenue", whole 1); (LStr "date", whole 2);
         (LStr "Total Revenue", SFloat S754_nan) ])
  = Some PNone
  /\ dict_get (LStr "date")
       (fill [(LStr "date", PStr "2024-09-30")]
          [ (LStr "Total Revenue", whole 1); (LStr "date", whole 2);
            (LStr "Total Revenue", SFloat S754_nan) ])
     = Some (PScalar (whole 2)).
Proof.
  pose proof (record_last_write_wins sample_statement "2024-09-30"
                [ (LStr "Total Revenue", whole 1); (LStr "date", whole 2);
                  (LStr "Total Revenue", SFloat S754_nan) ]) as H.
  destruct H as [_ [_ [_ [Hlast _]]]]. split.
  - exact (Hlast [ (LStr "Total Revenue", whole 1); (LStr "date", whole 2) ]
             (LStr "Total Revenue") (SFloat S754_nan) [] eq_refl eq_refl).
  - exact (Hlast [ (LStr "Total Revenue", whole 1) ]
             (LStr "date") (whole 2)
             [ (LStr "Total Revenue", SFloat S754_nan) ] eq_refl eq_refl).
Defined.

(** ** The field projection *)

Lemma trim_filter (items acc : dict) :
  fold_left (fun acc '(k, v) => if relevant k then dict_set k v acc else acc)
            items acc
  = fold_left (fun d '(k, v) => dict_set k v d) (filter allowed items) acc.
Proof.
  revert acc. induction items as [|[k v] items IH]; intros acc; simpl.
  - reflexivity.
  - unfold allowed at 1. simpl. destruct (relevant k); simpl; apply IH.
Qed.

Lemma mem_keys_filter (p : label * pyval -> bool) (k : label) (d : dict) :
  mem k (keys d) = false -> mem k (keys (filter p d)) = false.
Proof.
  induction d as [|[k' v'] d IH]; simpl; [reflexivity|].
  intros H. apply orb_false_iff in H as [Hk Hd].
  destruct (p (k', v')); simpl; [rewrite Hk|]; now apply IH.
Qed.

Lemma unique_keys_filter (p : label * pyval -> bool) (d : dict) :
  unique (keys d) = true -> unique (keys (filter p d)) = true.
Proof.
  induction d as [|[k v] d IH]; simpl; [reflexivity|].
  intros H. apply andb_true_iff in H as [Hk Hd].
  destruct (p (k, v)); simpl; [|now apply IH].
  apply negb_true_iff in Hk.
  now rewrite (mem_keys_filter p k d Hk), IH.
Qed.

(** On a dictionary, the comprehension is the filter by the allow-list:
    the kept pairs stand as they were, in their order. *)
Lemma trim_is_filter (info : dict) :
  unique (keys info) = true -> trim info = filter allowed info.
Proof.
  intros Hu. unfold trim. rewrite trim_filter.
  rewrite fold_dict_set_fresh; [reflexivity|].
  simpl. now apply unique_keys_filter.
Qed.

(** C7.  For every info bag (a dictionary), [get_stock_info] returns the
    JSON text of exactly the pairs whose key is in the allow-list, each
    with the value it had; the other keys are dropped, and a bag that
    shares no key with the allow-list yields the empty object. *)
Theorem stock_info_projection (L : Libs) (w : world) (ticker : string)
  (info : dict) :
  unique (keys info) = true ->
  resolves w ticker ->
  w (resolved ticker) (yf.Attr yf.info) = Ok (OVal (PDict info)) ->
  trim info = filter allowed info
  /\ (forall k v, In (k, v) (trim info) <-> In (k, v) info /\ relevant k = true)
  /\ invoke w (get_stock_info L ticker)
     = (resolved ticker ++ [Asked (yf.Attr yf.info)],
        json.dumps L (PDict (filter allowed info)))
  /\ (existsb allowed info = false ->
      snd (invoke w (get_stock_info L ticker)) = Ok "{}"%string).
Proof.
  intros Hu Hr Hw.
  assert (Htrim := trim_is_filter info Hu).
  assert (Hrun : invoke w (get_stock_info L ticker)
                 = (resolved ticker ++ [Asked (yf.Attr yf.info)],
                    json.dumps L (PDict (filter allowed info)))).
  { unfold get_stock_info. rewrite run_resolved by assumption.
    rewrite run_ask, Hw. unfold trimmed_info, items. simpl obind.
    rewrite Htrim. apply run_lift_end. }
  split; [exact Htrim|]. split; [|split; [exact Hrun|]].
  - intros k v. rewrite Htrim, filter_In. reflexivity.
  - intros Hnone. rewrite Hrun. simpl snd.
    assert (Hnil : filter allowed info = []).
    { clear - Hnone. induction info as [|kv info IH]; simpl in *;
        [reflexivity|].
      apply orb_false_iff in Hnone as [-> Hnone]. now apply IH. }
    now rewrite Hnil.
Qed.

Lemma stock_info_projection_witness :
  unique (keys sample_info) = true
  /\ trim sample_info
     = [ (LStr "symbol", PStr "AAPL");
         (LStr "marketCap", PScalar (SInt 3000000000000));
         (LStr "currency", PStr "USD") ]
  /\ fst (invoke market (get_stock_info sample_libs "AAPL"))
     = [Asked (yf.Ticker "AAPL"); Asked (yf.Attr yf.isin);
        Asked (yf.Attr yf.info)].
Proof.
  split; [reflexivity|].
  destruct (stock_info_projection sample_libs market "AAPL" sample_info
              eq_refl market_resolves_AAPL eq_refl) as [Ht [_ [Hrun _]]].
  split; [exact Ht | exact (f_equal fst Hrun)].
Defined.

(** ** The row-major shape *)

Lemma map_seq_nth_error {A B} (F : nat -> option A -> B) (l : list A)
  (a : nat) :
  map (fun i => F i (nth_error l (i - a))) (seq a (length l))
  = map (fun '(i, r) => F i (Some r)) (combine (seq a (length l)) l).
Proof.
  revert a. induction l as [|x l IH]; intros a; simpl; [reflexivity|].
  rewrite Nat.sub_diag. simpl. f_equal.
  rewrite <- IH. apply map_ext_in. intros i Hi. apply in_seq in Hi.
  replace (i - a) with (S (i - S a)) by lia. reflexivity.
Qed.

Lemma map_combine_seq_S {A B} (g : nat -> A -> B) (l : list A) (a : nat) :
  map (fun '(j, c) => g j c) (combine (seq (S a) (length l)) l)
  = map (fun '(j, c) => g (S j) c) (combine (seq a (length l)) l).
Proof.
  revert a. induction l as [|x l IH]; intros a; simpl;
    [reflexivity | now rewrite IH].
Qed.

Lemma nth_error_combine_seq {A} (l : list A) (a i : nat) (x : A) :
  nth_error l i = Some x ->
  nth_error (combine (seq a (length l)) l) i = Some (a + i, x).
Proof.
  revert a i. induction l as [|y l IH]; intros a [|i] H; simpl in *;
    try discriminate.
  - injection H as ->. now rewrite Nat.add_0_r.
  - rewrite (IH (S a) i H). do 2 f_equal. lia.
Qed.

Lemma nth_error_enumerate {A} (l : list A) (i : nat) (x : A) :
  nth_error l i = Some x -> nth_error (enumerate l) i = Some (i, x).
Proof. intros H. apply (nth_error_combine_seq l 0 i x H). Qed.

(** [reset_index] followed by the record layout is the row-major shape. *)
Lemma records_reset_index (name : string) (df : DataFrame) :
  mem (LStr name) (columns df) = false ->
  exists df', reset_index name (OFrame df) = Ok (OFrame df')
              /\ columns df' = LStr name :: columns df
              /\ records df' = row_major name df.
Proof.
  intros Hm. unfold reset_index. rewrite Hm.
  eexists. split; [reflexivity|]. split; [reflexivity|].
  unfold records, row_major, enumerate. simpl.
  rewrite length_map, length_seq.
  rewrite <- (map_seq_nth_error
                (fun i o =>
                   (LStr name,
                    match o with
                    | Some r => scalar_of_label r
                    | None => SNone
                    end)
                   :: map (fun '(j, c) => (c, iat df i j))
                        (combine (seq 0 (length (columns df))) (columns df)))
                (index df) 0).
  apply map_ext. intros i. rewrite Nat.sub_0_r. f_equal.
  apply (map_combine_seq_S (fun j c =>
           (c, match j with
               | 0 => match nth_error (index df) i with
                      | Some r => scalar_of_label r
                      | None => SNone
                      end
               | S j' => iat df i j'
               end)) (columns df) 0).
Qed.

Lemma to_json_reset_index (L : Libs) (fmt : date_format) (name : string)
  (df : DataFrame) :
  unique (LStr name :: columns df) = true ->
  obind (reset_index name (OFrame df)) (to_json L fmt)
  = Ok (encode_records L fmt (row_major name df)).
Proof.
  intros Hu. assert (Hu' := Hu). simpl in Hu'.
  apply andb_true_iff in Hu' as [Hm _]. apply negb_true_iff in Hm.
  destruct (records_reset_index name df Hm) as [df' [Hr [Hc Hrec]]].
  rewrite Hr. simpl. now rewrite Hc, Hu, Hrec.
Qed.


(** *** ISO timestamps *)








(** ** News *)

Lemma is_story_spec (news : pyval) :
  is_dict news = true ->
  dict_if_present (lookup_path news ["content"%string]) = true ->
  is_story news = Ok (story news).
Proof.
  destruct news as [x|l|d]; try discriminate. intros _.
  unfold is_story, story. simpl.
  destruct (dict_get (LStr "content") d) as [c|]; simpl.
  - destruct c as [x|l|dc]; try discriminate. intros _. simpl.
    now destruct (dict_get (LStr "contentType") dc).
  - reflexivity.
Qed.

Lemma news_block_spec (L : Libs) (news : pyval) :
  news_item news = true -> story news = true ->
  news_block L news = Ok (text_block L news).
Proof.
  unfold news_item. intros Hitem Hstory. rewrite Hstory in Hitem.
  simpl in Hitem. rewrite !andb_true_iff in Hitem.
  destruct Hitem as [[Hd Hc] Hu].
  destruct news as [x|l|d]; try discriminate.
  unfold news_block, text_block, field, story in *. simpl in *.
  destruct (dict_get (LStr "content") d) as [c|]; simpl in *;
    [|discriminate].
  destruct c as [x|l|dc]; try discriminate. simpl in *.
  destruct (dict_get (LStr "title") dc) as [title|];
  destruct (dict_get (LStr "summary") dc) as [summary|];
  destruct (dict_get (LStr "description") dc) as [description|];
  (destruct (dict_get (LStr "canonicalUrl") dc) as [u|]; simpl in *;
   [ destruct u as [x|l|du]; try discriminate; simpl;
     destruct (dict_get (LStr "url") du)
   | ]);
  reflexivity.
Qed.

(** On well-formed items the loop keeps the stories, in order, each as
    its text block. *)
Lemma news_loop_spec (L : Libs) (items : list pyval) :
  forallb news_item items = true ->
  news_loop L items = Ok (map (text_block L) (filter story items)).
Proof.
  induction items as [|news items IH]; simpl; [reflexivity|].
  intros H. apply andb_true_iff in H as [Hn Hrest].
  assert (Hn' := Hn). unfold news_item in Hn'.
  rewrite !andb_true_iff in Hn'. destruct Hn' as [[Hd Hc] _].
  rewrite (is_story_spec news Hd Hc). simpl.
  destruct (story news) eqn:Hs.
  - rewrite (news_block_spec L news Hn Hs). simpl.
    now rewrite (IH Hrest).
  - now apply IH.
Qed.


Lemma filter_story_some (items : list pyval) :
  existsb story items = true -> filter story items <> [].
Proof.
  induction items as [|news items IH]; simpl; [discriminate|].
  destruct (story news); simpl; [discriminate | exact IH].
Qed.

(** The tool up to the loop: both reads of [company.news] succeed. *)
Lemma run_news (L : Libs) (w : world) (ticker : string) (first : pyobj)
  (items : list pyval) :
  resolves w ticker ->
  w (resolved ticker) (yf.Attr yf.news) = Ok first ->
  w (resolved ticker ++ [Asked (yf.Attr yf.news)]) (yf.Attr yf.news)
  = Ok (OVal (PList items)) ->
  invoke w (get_yahoo_finance_news L ticker)
  = match news_loop L items with
    | Ok [] =>
        (resolved ticker
         ++ [Asked (yf.Attr yf.news); Asked (yf.Attr yf.news);
             Printed (no_news ticker)],
         Ok (no_news ticker))
    | Ok news_list =>
        (resolved ticker
         ++ [Asked (yf.Attr yf.news); Asked (yf.Attr yf.news)],
         Ok (join (nl ++ nl) news_list))
    | Err e =>
        (resolved ticker
         ++ [Asked (yf.Attr yf.news); Asked (yf.Attr yf.news)],
         Err e)
    end.
Proof.
  intros Hr H1 H2. unfold get_yahoo_finance_news.
  rewrite run_resolved by assumption.
  simpl. rewrite H1. simpl. simpl in H2. rewrite H2. simpl.
  destruct (news_loop L items) as [[|b bs]|e]; reflexivity.
Qed.




(** C9, as stated, fails: the defaults of [.get] cover a key that is
    absent, not a value that is present and is not a record.  A story
    whose [canonicalUrl] is null, an item whose [content] is null and an
    item that is itself null each make the tool raise. *)
Lemma null_structure_raises :
  story story_null_url = true
  /\ snd (invoke (with_news (PList [story_null_url]))
            (get_yahoo_finance_news sample_libs "AAPL"))
     = Err (AttributeError PNone "get")
  /\ snd (invoke (with_news (PList [sample_story; item_null_content]))
            (get_yahoo_finance_news sample_libs "AAPL"))
     = Err (AttributeError PNone "get")
  /\ snd (invoke (with_news (PList [sample_story; PNone]))
            (get_yahoo_finance_news sample_libs "AAPL"))
     = Err (AttributeError PNone "get").
Proof. repeat split. Qed.

(** C9, amended.  For every list of news items with at least one story,
    [get_yahoo_finance_news] returns one string: the text blocks of
    exactly the stories, in order, joined by a blank line.  A block is
    [Title: t\nSummary: s\nDescription: d\nURL: u], where each field is
    the text found under [content] (the URL under
    [content.canonicalUrl.url]) and the empty string when the key, or a
    record on the way to it, is absent.  No exception is raised. *)
Theorem story_blocks (L : Libs) (w : world) (ticker : string)
  (first : pyobj) (items : list pyval) :
  resolves w ticker ->
  w (resolved ticker) (yf.Attr yf.news) = Ok first ->
  w (resolved ticker ++ [Asked (yf.Attr yf.news)]) (yf.Attr yf.news)
  = Ok (OVal (PList items)) ->
  forallb news_item items = true ->
  existsb story items = true ->
  invoke w (get_yahoo_finance_news L ticker)
  = (resolved ticker ++ [Asked (yf.Attr yf.news); Asked (yf.Attr yf.news)],
     Ok (join (nl ++ nl) (map (text_block L) (filter story items))))
  /\ (forall news path,
        lookup_path news path = None -> field L news path = ""%string)
  /\ (forall news path s,
        lookup_path news path = Some (PStr s) -> field L news path = s).
Proof.
  intros Hr H1 H2 Hwf Hsome. split; [|split].
  - rewrite (run_news L w ticker first items Hr H1 H2).
    rewrite (news_loop_spec L items Hwf).
    destruct (filter story items) as [|n ns] eqn:Hf; [|reflexivity].
    now destruct (filter_story_some items Hsome).
  - intros news path H. unfold field. now rewrite H.
  - intros news path s H. unfold field. now rewrite H.
Qed.

Lemma story_blocks_witness :
  resolves market "AAPL"
  /\ forallb news_item [sample_story; sample_video; bare_story] = true
  /\ existsb story [sample_story; sample_video; bare_story] = true
  /\ snd (invoke market (get_yahoo_finance_news sample_libs "AAPL"))
     = Ok ("Title: Quarterly results" ++ nl ++ "Summary: " ++ nl
           ++ "Description: " ++ nl ++ "URL: https://example.com/a1"
           ++ nl ++ nl
           ++ "Title: " ++ nl ++ "Summary: " ++ nl
           ++ "Description: " ++ nl ++ "URL: ")%string.
Proof.
  split; [exact market_resolves_AAPL|]. do 2 (split; [reflexivity|]).
  exact (f_equal snd
           (proj1 (story_blocks sample_libs market "AAPL"
                     (OVal (PList [sample_story; sample_video; bare_story]))
                     [sample_story; sample_video; bare_story]
                     market_resolves_AAPL eq_refl eq_refl eq_refl eq_refl))).
Defined.

(** A [content] that is present but is not a record is outside the
    items above: the tool then raises. *)
Lemma null_content_raises (L : Libs) :
  news_loop L [PDict [(LStr "content", PNone)]]
  = Err (AttributeError PNone "get").
Proof. reflexivity. Qed.

(** * Further properties of the tools *)

(** ** The resolution block *)

(** X1.  When reading [company.isin] raises, each of the six tools that
    have the resolution block prints and returns its own error line,
    [Error: <action> for <ticker>: <message>], and asks the provider
    nothing more. *)
Theorem lookup_failure_reported (L : Libs) (how : enum_format) (w : world)
  (t : tool) (ticker : string) (h : pyobj) (e : exn) :
  t <> t_get_stock_actions ->
  w [] (yf.Ticker ticker) = Ok h ->
  w [Asked (yf.Ticker ticker)] (yf.Attr yf.isin) = Err e ->
  invoke w (call_tool L how t ticker)
  = (resolved ticker
     ++ [Printed ("Error: " ++ action_of t ++ " for " ++ ticker ++ ": "
                  ++ exn_msg e)%string],
     Ok ("Error: " ++ action_of t ++ " for " ++ ticker ++ ": "
         ++ exn_msg e)%string).
Proof.
  intros Ht Hh Hv.
  destruct t; try congruence; unfold call_tool, invoke;
    [ unfold get_historical_stock_prices
    | unfold get_stock_info
    | unfold get_yahoo_finance_news
    | unfold get_financial_statement
    | unfold get_holder_info
    | unfold get_recommendations ];
    rewrite run_ask, Hh; simpl app; rewrite run_check_isin, Hv;
    reflexivity.
Qed.

Lemma lookup_failure_reported_witness :
  t_get_holder_info <> t_get_stock_actions
  /\ invoke lookup_fails (get_holder_info sample_libs "AAPL")
     = ([ Asked (yf.Ticker "AAPL"); Asked (yf.Attr yf.isin);
          Printed "Error: getting holder info for AAPL: Too Many Requests. Rate limited. Try after a while." ],
        Ok "Error: getting holder info for AAPL: Too Many Requests. Rate limited. Try after a while."%string).
Proof.
  split; [discriminate|].
  exact (lookup_failure_reported sample_libs ByName lookup_fails
           t_get_holder_info "AAPL" (OVal PNone) rate_limit
           ltac:(discriminate) eq_refl eq_refl).
Defined.

(** X2.  When [company.isin] is [None], the same six tools print and
    return [Company ticker <ticker> not found.] whatever their other
    arguments are, and make no data read. *)
Theorem unresolved_symbol_not_found (L : Libs) (how : enum_format)
  (w : world) (t : tool) (ticker : string) (h : pyobj) :
  t <> t_get_stock_actions ->
  w [] (yf.Ticker ticker) = Ok h ->
  w [Asked (yf.Ticker ticker)] (yf.Attr yf.isin) = Ok (OVal PNone) ->
  invoke w (call_tool L how t ticker)
  = ([ Asked (yf.Ticker ticker); Asked (yf.Attr yf.isin);
       Printed ("Company ticker " ++ ticker ++ " not found.")%string ],
     Ok ("Company ticker " ++ ticker ++ " not found.")%string).
Proof.
  intros Ht Hh Hv.
  destruct t; try congruence; unfold call_tool;
    [ unfold get_historical_stock_prices
    | unfold get_stock_info
    | unfold get_yahoo_finance_news
    | unfold get_financial_statement
    | unfold get_holder_info
    | unfold get_recommendations ];
    now rewrite (run_unresolved _ _ _ _ _ Hh Hv).
Qed.

Lemma unresolved_symbol_not_found_witness :
  t_get_financial_statement "no such kind" <> t_get_stock_actions
  /\ snd (invoke market
            (get_financial_statement sample_libs ByName "XYZ" "no such kind"))
     = Ok "Company ticker XYZ not found."%string.
Proof.
  split; [discriminate|].
  exact (f_equal snd
           (unresolved_symbol_not_found sample_libs ByName market
              (t_get_financial_statement "no such kind") "XYZ" (OVal PNone)
              ltac:(discriminate) eq_refl eq_refl)).
Defined.

(** X3.  When [yf.Ticker(ticker)] itself raises, [get_stock_actions],
    the one tool that builds the handle inside a [try], prints and
    returns its error line; in the six others the exception leaves the
    tool.  No tool asks anything after the failed construction. *)
Theorem handle_failure (L : Libs) (how : enum_format) (w : world)
  (t : tool) (ticker : string) (e : exn) :
  w [] (yf.Ticker ticker) = Err e ->
  invoke w (call_tool L how t ticker)
  = match t with
    | t_get_stock_actions =>
        ([ Asked (yf.Ticker ticker);
           Printed ("Error: getting stock actions for " ++ ticker ++ ": "
                    ++ exn_msg e)%string ],
         Ok ("Error: getting stock actions for " ++ ticker ++ ": "
             ++ exn_msg e)%string)
    | _ => ([Asked (yf.Ticker ticker)], Err e)
    end.
Proof.
  intros H.
  destruct t; unfold call_tool, invoke;
    [ unfold get_historical_stock_prices
    | unfold get_stock_info
    | unfold get_yahoo_finance_news
    | unfold get_stock_actions
    | unfold get_financial_statement
    | unfold get_holder_info
    | unfold get_recommendations ];
    simpl; rewrite H; reflexivity.
Qed.

Lemma handle_failure_witness :
  invoke offline (get_stock_actions sample_libs "AAPL")
  = ([ Asked (yf.Ticker "AAPL");
       Printed "Error: getting stock actions for AAPL: Network is unreachable" ],
     Ok "Error: getting stock actions for AAPL: Network is unreachable"%string)
  /\ snd (invoke offline (get_stock_info sample_libs "AAPL"))
     = Err (Exception "ConnectionError" "Network is unreachable").
Proof.
  split.
  - exact (handle_failure sample_libs ByName offline t_get_stock_actions
             "AAPL" _ eq_refl).
  - exact (f_equal snd
             (handle_failure sample_libs ByName offline t_get_stock_info
                "AAPL" _ eq_refl)).
Defined.

(** ** News *)

(** X4.  When the first read of [company.news] raises,
    [get_yahoo_finance_news] prints and returns
    [Error: getting news for <ticker>: <message>] and does not read the
    news again. *)
Theorem news_failure_reported (L : Libs) (w : world) (ticker : string)
  (e : exn) :
  resolves w ticker ->
  w (resolved ticker) (yf.Attr yf.news) = Err e ->
  invoke w (get_yahoo_finance_news L ticker)
  = (resolved ticker
     ++ [ Asked (yf.Attr yf.news);
          Printed ("Error: getting news for " ++ ticker ++ ": "
                   ++ exn_msg e)%string ],
     Ok ("Error: getting news for " ++ ticker ++ ": " ++ exn_msg e)%string).
Proof.
  intros Hr H. unfold get_yahoo_finance_news.
  rewrite run_resolved by assumption. simpl. now rewrite H.
Qed.

Lemma news_down_resolves_AAPL : resolves news_down "AAPL".
Proof.
  split; [now exists (OVal PNone)|].
  exists (OVal (PStr "US0378331005")). now split.
Defined.

Lemma news_failure_reported_witness :
  resolves news_down "AAPL"
  /\ snd (invoke news_down (get_yahoo_finance_news sample_libs "AAPL"))
     = Ok "Error: getting news for AAPL: Too Many Requests. Rate limited. Try after a while."%string.
Proof.
  split; [exact news_down_resolves_AAPL|].
  exact (f_equal snd
           (news_failure_reported sample_libs news_down "AAPL" rate_limit
              news_down_resolves_AAPL eq_refl)).
Defined.

Lemma rate_limited_resolves_AAPL : resolves rate_limited "AAPL".
Proof.
  split; [now exists (OVal PNone)|].
  exists (OVal (PStr "US0378331005")). now split.
Defined.

Lemma fetch_exception_propagates_witness :
  resolves rate_limited "AAPL"
  /\ snd (invoke rate_limited (get_stock_info sample_libs "AAPL"))
     = Err rate_limit
  /\ snd (invoke rate_limited
            (get_financial_statement sample_libs ByName "AAPL"
               "balance_sheet"))
     = Err rate_limit.
Proof.
  split; [exact rate_limited_resolves_AAPL|].
  destruct (fetch_exception_propagates sample_libs ByName rate_limited
              "AAPL" "1mo" "1d" FinancialType.balance_sheet rate_limit
              rate_limited_resolves_AAPL) as [_ [Hi [Hs _]]].
  split; [exact (Hi eq_refl) | exact (Hs eq_refl)].
Defined.

(** ** Recommendations and holders *)

(** X5.  Once the handle is built, [get_recommendations] returns a
    string whatever the provider does next: a read of
    [company.recommendations] that raises, and an answer that cannot be
    encoded, are printed and returned as
    [Error: getting recommendations for <ticker>: <message>]. *)
Theorem recommendations_never_raise (L : Libs) (w : world)
  (ticker : string) (h : pyobj) :
  w [] (yf.Ticker ticker) = Ok h ->
  (exists s, snd (invoke w (get_recommendations L ticker)) = Ok s)
  /\ (resolves w ticker ->
      forall e,
        w (resolved ticker) (yf.Attr yf.recommendations) = Err e
        \/ (exists r, w (resolved ticker) (yf.Attr yf.recommendations) = Ok r
                      /\ to_json L Epoch r = Err e) ->
        invoke w (get_recommendations L ticker)
        = (resolved ticker
           ++ [ Asked (yf.Attr yf.recommendations);
                Printed ("Error: getting recommendations for " ++ ticker
                         ++ ": " ++ exn_msg e)%string ],
           Ok ("Error: getting recommendations for " ++ ticker ++ ": "
               ++ exn_msg e)%string)).
Proof.
  intros Hh. split.
  - unfold get_recommendations, invoke.
    rewrite run_ask, Hh. simpl app. rewrite run_check_isin.
    destruct (w [Asked (yf.Ticker ticker)] (yf.Attr yf.isin)) as [v|e];
      [destruct (is_None v)|]; try (eexists; reflexivity).
    simpl.
    destruct (w _ (yf.Attr yf.recommendations)) as [r|e]; simpl;
      [destruct (to_json L Epoch r)|]; eexists; reflexivity.
  - intros Hr e He. unfold get_recommendations.
    rewrite run_resolved by assumption. simpl.
    destruct He as [He | [r [Hw Hj]]].
    + now rewrite He.
    + rewrite Hw. simpl. now rewrite Hj.
Qed.

Lemma no_recommendations_resolves_AAPL : resolves no_recommendations "AAPL".
Proof.
  split; [now exists (OVal PNone)|].
  exists (OVal (PStr "US0378331005")). now split.
Defined.

Lemma recommendations_never_raise_witness :
  snd (invoke no_recommendations (get_recommendations sample_libs "AAPL"))
  = Ok "Error: getting recommendations for AAPL: 'NoneType' object has no attribute 'to_json'"%string.
Proof.
  destruct (recommendations_never_raise sample_libs no_recommendations
              "AAPL" (OVal PNone) eq_refl) as [_ H].
  exact (f_equal snd
           (H no_recommendations_resolves_AAPL
              (AttributeError PNone "to_json")
              (or_intror (ex_intro _ (OVal PNone) (conj eq_refl eq_refl))))).
Defined.

(** X6.  On a table with pairwise distinct column labels,
    [get_recommendations] returns the text of one object per row holding
    the columns only: the row labels are not part of the output.  It
    prints nothing. *)
Theorem recommendations_records (L : Libs) (w : world) (ticker : string)
  (df : DataFrame) :
  resolves w ticker ->
  w (resolved ticker) (yf.Attr yf.recommendations) = Ok (OFrame df) ->
  unique (columns df) = true ->
  invoke w (get_recommendations L ticker)
  = (resolved ticker ++ [Asked (yf.Attr yf.recommendations)],
     Ok (columns_text L df)).
Proof.
  intros Hr Hw Hu. unfold get_recommendations.
  rewrite run_resolved by assumption. simpl. rewrite Hw. simpl.
  rewrite Hu. simpl. do 2 f_equal.
  unfold encode_records, columns_text, json_array, records.
  rewrite map_map. do 3 f_equal. apply map_ext. intros i.
  unfold encode_record, json_object, json_member. rewrite map_map.
  do 3 f_equal. apply map_ext. now intros [j c].
Qed.

Lemma recommendations_records_witness :
  resolves market "AAPL"
  /\ unique (columns sample_holders) = true
  /\ snd (invoke market (get_recommendations sample_libs "AAPL"))
     = Ok ("[{" ++ dq ++ "Value" ++ dq ++ ":0},{" ++ dq ++ "Value" ++ dq
           ++ ":1}]")%string.
Proof.
  split; [exact market_resolves_AAPL|]. split; [reflexivity|].
  exact (f_equal snd
           (recommendations_records sample_libs market "AAPL" sample_holders
              market_resolves_AAPL eq_refl eq_refl)).
Defined.

(** X7.  On a table whose column labels are pairwise distinct and leave
    the name [metric] free, [get_holder_info] returns the text of one
    object per row: the key ["metric"] first, with the row label, then
    the table's columns.  When a column is already called [metric],
    pandas refuses the insertion and the [ValueError] leaves the tool. *)
Theorem holder_info_records (L : Libs) (w : world) (ticker : string)
  (df : DataFrame) :
  resolves w ticker ->
  w (resolved ticker) (yf.Attr yf.major_holders) = Ok (OFrame df) ->
  (unique (LStr "metric" :: columns df) = true ->
   invoke w (get_holder_info L ticker)
   = (resolved ticker ++ [Asked (yf.Attr yf.major_holders)],
      Ok (holders_text L df)))
  /\ (mem (LStr "metric") (columns df) = true ->
      invoke w (get_holder_info L ticker)
      = (resolved ticker ++ [Asked (yf.Attr yf.major_holders)],
         Err (ValueError "cannot insert metric, already exists"))).
Proof.
  intros Hr Hw. split; intros H; unfold get_holder_info;
    rewrite run_resolved by assumption;
    rewrite run_ask, Hw, run_lift_lift.
  - rewrite (to_json_reset_index L Epoch "metric" df H). do 2 f_equal.
    unfold encode_records, holders_text, json_array, row_major.
    rewrite map_map. do 3 f_equal. apply map_ext. intros [i r].
    unfold encode_record, json_object, json_member. simpl map.
    do 3 f_equal. f_equal. rewrite map_map. apply map_ext.
    now intros [j c].
  - unfold reset_index. now rewrite H.
Qed.

Lemma holder_info_records_witness :
  resolves market "AAPL"
  /\ unique (LStr "metric" :: columns sample_holders) = true
  /\ snd (invoke market (get_holder_info sample_libs "AAPL"))
     = Ok ("[{" ++ dq ++ "metric" ++ dq ++ ":" ++ dq ++ "insidersPercentHeld"
           ++ dq ++ "," ++ dq ++ "Value" ++ dq ++ ":0},{"
           ++ dq ++ "metric" ++ dq ++ ":" ++ dq ++ "institutionsCount"
           ++ dq ++ "," ++ dq ++ "Value" ++ dq ++ ":1}]")%string.
Proof.
  split; [exact market_resolves_AAPL|]. split; [reflexivity|].
  exact (f_equal snd
           (proj1 (holder_info_records sample_libs market "AAPL"
                     sample_holders market_resolves_AAPL eq_refl)
                  eq_refl)).
Defined.

(** ** What every call does *)

Ltac crunch w :=
  unfold lift;
  repeat (simpl;
          match goal with
          | |- context [w ?p ?r] => destruct (w p r) eqn:?
          | |- context [is_None ?v] => destruct (is_None v) eqn:?
          | |- context [match news_loop ?L ?l with _ => _ end] =>
              destruct (news_loop L l) as [[|? ?]|?] eqn:?
          | |- context [match ?x with _ => _ end] =>
              lazymatch type of x with
              | outcome _ => destruct x eqn:?
              end
          end).

(** X8.  A tool prints at most one line per call, and a line it prints
    is the string it returns: the diagnostic channel never says anything
    the caller does not get.  The line is an error line, the not-found
    line or the no-news line. *)
Theorem printed_line_is_returned (L : Libs) (how : enum_format) (w : world)
  (t : tool) (ticker : string) :
  printed (fst (invoke w (call_tool L how t ticker))) = []
  \/ exists line,
       printed (fst (invoke w (call_tool L how t ticker))) = [line]
       /\ snd (invoke w (call_tool L how t ticker)) = Ok line
       /\ (String.prefix "Error: " line = true
           \/ line = not_found ticker \/ line = no_news ticker).
Proof.
  destruct t; unfold call_tool, invoke;
    [ unfold get_historical_stock_prices
    | unfold get_stock_info
    | unfold get_yahoo_finance_news
    | unfold get_stock_actions
    | unfold get_financial_statement;
      destruct (select_statement financial_type) eqn:Hsel
    | unfold get_holder_info
    | unfold get_recommendations ];
    unfold check_isin; crunch w;
    first [ left; reflexivity
          | right; eexists; split; [reflexivity|]; split; [reflexivity|];
            first [ left; reflexivity
                  | right; left; reflexivity
                  | right; right; reflexivity ] ].
Qed.

(** X9.  Every call follows the script of its tool and stops at some
    point of it: the handle first, then the identifier lookup (not in
    [get_stock_actions]), then the data reads of its own concern.  A tool
    never asks the provider for anything else, nor in another order. *)
Theorem calls_follow_script (L : Libs) (how : enum_format) (w : world)
  (t : tool) (ticker : string) :
  exists n,
    1 <= n
    /\ requests (fst (invoke w (call_tool L how t ticker)))
       = firstn n (script t ticker).
Proof.
  destruct t; unfold call_tool, invoke, script, fetches;
    [ unfold get_historical_stock_prices
    | unfold get_stock_info
    | unfold get_yahoo_finance_news
    | unfold get_stock_actions
    | unfold get_financial_statement;
      destruct (select_statement financial_type) eqn:Hsel
    | unfold get_holder_info
    | unfold get_recommendations ];
    unfold check_isin; crunch w;
    first [ exists 1; split; [lia | reflexivity]
          | exists 2; split; [lia | reflexivity]
          | exists 3; split; [lia | reflexivity]
          | exists 4; split; [lia | reflexivity] ].
Qed.

(** ** The field projection on any sequence of pairs *)

Lemma in_dict_set (x : label * pyval) (k : label) (v : pyval) (d : dict) :
  In x (dict_set k v d) -> x = (k, v) \/ In x d.
Proof.
  induction d as [|[k' v'] d IH]; simpl.
  - intros [<-|[]]. now left.
  - destruct (label_eqb k k') eqn:E; simpl.
    + apply label_eqb_eq in E. subst k'. intros [<-|H]; auto.
    + intros [<-|H]; auto. destruct (IH H); auto.
Qed.

Lemma in_fold_dict_set (x : label * pyval) (ws acc : dict) :
  In x (fold_left (fun d '(k, v) => dict_set k v d) ws acc) ->
  In x acc \/ In x ws.
Proof.
  revert acc. induction ws as [|[k v] ws IH]; intros acc H; simpl in *.
  - now left.
  - destruct (IH _ H) as [H'|H']; [|now right; right].
    destruct (in_dict_set _ _ _ _ H') as [->|H'']; auto.
Qed.

Lemma relevant_in_allow_list (k : label) :
  relevant k = true -> In k (map LStr relevant_keys).
Proof.
  destruct k as [s|z|t]; try discriminate. unfold relevant.
  intros H. apply existsb_exists in H as [x [Hx He]].
  apply String.eqb_eq in He. subst x. now apply in_map.
Qed.

Lemma filter_all {A} (p : A -> bool) (l : list A) :
  (forall x, In x l -> p x = true) -> filter p l = l.
Proof.
  induction l as [|x l IH]; simpl; intros H; [reflexivity|].
  rewrite (H x (or_introl eq_refl)). f_equal. apply IH. auto.
Qed.

(** X10.  Whatever pairs the comprehension of [get_stock_info] is run
    on, its result is a dictionary (no key twice) made of pairs of the
    input whose key is in the allow-list, so it never has more than the
    44 fields of the list; and running it again changes nothing. *)
Theorem trim_allow_list (items : dict) :
  unique (keys (trim items)) = true
  /\ (forall k v, In (k, v) (trim items) ->
                  In (k, v) items /\ relevant k = true)
  /\ length (trim items) <= 44
  /\ trim (trim items) = trim items.
Proof.
  assert (Hu : unique (keys (trim items)) = true).
  { unfold trim. rewrite trim_filter.
    apply (fold_dict_set_last (filter allowed items) []). reflexivity. }
  assert (Hin : forall k v, In (k, v) (trim items) ->
                            In (k, v) items /\ relevant k = true).
  { intros k v H. unfold trim in H. rewrite trim_filter in H.
    apply in_fold_dict_set in H as [[]|H].
    apply filter_In in H. exact H. }
  split; [exact Hu|]. split; [exact Hin|]. split.
  - replace (length (trim items)) with (length (keys (trim items)))
      by (unfold keys; apply length_map).
    change 44 with (length (map LStr relevant_keys)).
    apply NoDup_incl_length; [now apply unique_NoDup|].
    intros k Hk. unfold keys in Hk. apply in_map_iff in Hk as [[k' v] [<- H]].
    apply relevant_in_allow_list. exact (proj2 (Hin k' v H)).
  - rewrite (trim_is_filter (trim items) Hu). apply filter_all.
    intros [k v] H. exact (proj2 (Hin k v H)).
Qed.

(** ** The statement loop on any table *)

Lemma fold_dict_set_head (ws d : dict) (k0 : label) (v0 : pyval) :
  exists v rest,
    fold_left (fun d '(k, v) => dict_set k v d) ws ((k0, v0) :: d)
    = (k0, v) :: rest.
Proof.
  revert d v0. induction ws as [|[k v] ws IH]; intros d v0; simpl.
  - now exists v0, d.
  - destruct (label_eqb k k0); apply IH.
Qed.

Lemma forallb_dict_set (P : label * pyval -> bool) (k : label) (v : pyval)
  (d : dict) :
  P (k, v) = true -> forallb P d = true ->
  forallb P (dict_set k v d) = true.
Proof.
  intros Hv. induction d as [|[k' v'] d IH]; simpl.
  - intros _. now rewrite Hv.
  - intros H. apply andb_true_iff in H as [H1 H2].
    destruct (label_eqb k k') eqn:E; simpl.
    + apply label_eqb_eq in E. subst k'. now rewrite Hv, H2.
    + now rewrite H1, IH.
Qed.

Lemma forallb_fold_dict_set (P : label * pyval -> bool) (ws acc : dict) :
  forallb P ws = true -> forallb P acc = true ->
  forallb P (fold_left (fun d '(k, v) => dict_set k v d) ws acc) = true.
Proof.
  revert acc. induction ws as [|[k v] ws IH]; intros acc Hw Ha; simpl in *.
  - exact Ha.
  - apply andb_true_iff in Hw as [Hv Hw].
    apply IH; [exact Hw|]. now apply forallb_dict_set.
Qed.

Lemma not_nan_null_if_missing (x : scalar) :
  not_nan (null_if_missing x) = true.
Proof. destruct x as [| | | |f| |]; try reflexivity. now destruct f. Qed.

Lemma fill_clean (date_str : string) (items : list (label * scalar)) :
  clean_record (fill [(LStr "date", PStr date_str)] items) = true.
Proof.
  destruct (fill_last_write date_str items) as [Hu _].
  assert (Hn : forallb (fun kv => not_nan (snd kv))
                 (fill [(LStr "date", PStr date_str)] items) = true).
  { rewrite fill_writes. apply forallb_fold_dict_set; [|reflexivity].
    clear. induction items as [|[k x] items IH]; simpl; [reflexivity|].
    now rewrite not_nan_null_if_missing, IH. }
  revert Hu Hn. rewrite fill_writes.
  destruct (fold_dict_set_head
              (map (fun '(metric, x) => (metric, null_if_missing x)) items)
              [] (LStr "date") (PStr date_str)) as [v [rest ->]].
  intros Hu Hn. unfold clean_record. now rewrite Hu, Hn.
Qed.

Lemma statement_loop_clean (df : DataFrame) (rest pre : list label) :
  columns df = pre ++ rest -> unique (columns df) = true ->
  exists recs,
    statement_loop df rest = Ok recs
    /\ length recs = length rest
    /\ forallb clean_record recs = true.
Proof.
  revert pre. induction rest as [|c rest IH]; intros pre Hc Hu; simpl.
  - now exists [].
  - unfold column_record.
    rewrite (column_items_unique df pre rest c Hc Hu). simpl.
    destruct (IH (pre ++ [c])) as [recs [Hl [Hn Hk]]];
      [now rewrite <- app_assoc | assumption |].
    rewrite Hl. simpl. eexists. split; [reflexivity|]. split.
    + simpl. now rewrite Hn.
    + simpl. now rewrite fill_clean, Hk.
Qed.

Lemma count_positive (c : label) (l : list label) :
  In c l -> exists j, position c l = Some j /\ 1 <= count c l.
Proof.
  induction l as [|x l IH]; simpl; [intros []|].
  intros H. destruct (label_eqb c x) eqn:E.
  - exists 0. split; [reflexivity | lia].
  - destruct H as [->|H]; [now rewrite label_eqb_refl in E|].
    destruct (IH H) as [j [-> Hj]]. exists (S j). split; [reflexivity|lia].
Qed.

Lemma repeated_label (l : list label) :
  unique l = false -> exists c, In c l /\ count c l <> 1.
Proof.
  induction l as [|x l IH]; simpl; [discriminate|].
  intros H. apply andb_false_iff in H as [H|H].
  - apply negb_false_iff in H. exists x. split; [now left|].
    rewrite label_eqb_refl. apply mem_In in H.
    destruct (count_positive x l H) as [j [_ Hj]]. lia.
  - destruct (IH H) as [c [Hc Hn]]. exists c. split; [now right|].
    destruct (label_eqb c x); [|exact Hn].
    destruct (count_positive c l Hc) as [j [_ Hj]]. lia.
Qed.

Lemma statement_loop_raises (df : DataFrame) (rest : list label)
  (c : label) :
  In c rest -> In c (columns df) -> count c (columns df) <> 1 ->
  exists e, statement_loop df rest = Err e.
Proof.
  induction rest as [|c0 rest IH]; simpl; [intros []|].
  intros Hin Hc Hn.
  destruct (column_record df c0) as [r|e] eqn:Hr; simpl;
    [|now exists e].
  destruct Hin as [->|Hin].
  - unfold column_record, column_items in Hr.
    destruct (count_positive c (columns df) Hc) as [j [Hp _]].
    rewrite Hp in Hr. apply Nat.eqb_neq in Hn. rewrite Hn in Hr.
    discriminate.
  - destruct (IH Hin Hc Hn) as [e ->]. now exists e.
Qed.

(** X11.  The statement loop succeeds exactly on tables whose column
    labels are pairwise distinct, whatever the rows are.  It then yields
    one record per column, each beginning with the [date] entry, with no
    key twice and with no NaN or NaT among its values; with a repeated
    column label it raises. *)
Theorem statement_records_clean (df : DataFrame) :
  (unique (columns df) = true ->
   exists recs,
     statement_records (OFrame df) = Ok recs
     /\ length recs = length (columns df)
     /\ forallb clean_record recs = true)
  /\ (unique (columns df) = false ->
      exists e, statement_records (OFrame df) = Err e).
Proof.
  split; intros Hu; simpl.
  - now apply (statement_loop_clean df (columns df) []).
  - destruct (repeated_label _ Hu) as [c [Hc Hn]].
    now apply (statement_loop_raises df (columns df) c).
Qed.

Lemma statement_records_clean_witness :
  unique (columns statement_with_date_row) = true
  /\ unique (columns statement_with_repeated_column) = false
  /\ (exists recs,
        statement_records (OFrame statement_with_date_row) = Ok recs
        /\ length recs = 1 /\ forallb clean_record recs = true)
  /\ (exists e,
        statement_records (OFrame statement_with_repeated_column) = Err e).
Proof.
  split; [reflexivity|]. split; [reflexivity|]. split.
  - exact (proj1 (statement_records_clean statement_with_date_row) eq_refl).
  - exact (proj2 (statement_records_clean statement_with_repeated_column)
             eq_refl).
Defined.

(** ** When the statement tool returns text *)

Lemma dumps_printable_value (L : Libs) (v : pyval) :
  printable_value v = true -> exists s, json.dumps L v = Ok s.
Proof.
  destruct v as [x|l|d]; try discriminate.
  destruct x as [| |b|z|f|s|t]; try discriminate; intros _; simpl;
    try (eexists; reflexivity).
  - destruct b; eexists; reflexivity.
  - destruct f as [[|]|[|]| |]; eexists; reflexivity.
Qed.

Lemma dumps_printable_key (L : Libs) (k : label) :
  printable_key k = true -> exists s, json.dumps_key L k = Ok s.
Proof. destruct k; try discriminate; intros _; eexists; reflexivity. Qed.

Lemma dumps_printable_dict (L : Libs) (d : dict) :
  forallb printable_member d = true ->
  exists s, json.dumps L (PDict d) = Ok s.
Proof.
  intros H. simpl.
  match goal with
  | |- context [obind (?F d) _] =>
      assert (Hm : exists ss, F d = Ok ss)
  end.
  { induction d as [|[k v] d IH]; simpl.
    - eexists; reflexivity.
    - simpl in H. apply andb_true_iff in H as [Hkv Hd].
      unfold printable_member in Hkv. simpl in Hkv.
      apply andb_true_iff in Hkv as [Hk Hv].
      destruct (dumps_printable_key L k Hk) as [sk ->].
      destruct (dumps_printable_value L v Hv) as [sv Hsv].
      simpl in Hsv |- *. rewrite Hsv. simpl.
      destruct (IH Hd) as [ss ->]. eexists; reflexivity. }
  destruct Hm as [ss ->]. eexists; reflexivity.
Qed.

Lemma dumps_printable_records (L : Libs) (recs : list dict) :
  forallb (forallb printable_member) recs = true ->
  exists s, json.dumps L (PList (map PDict recs)) = Ok s.
Proof.
  intros H. simpl.
  match goal with
  | |- context [obind (?F (map PDict recs)) _] =>
      assert (Hm : exists ss, F (map PDict recs) = Ok ss)
  end.
  { induction recs as [|r recs IH]; simpl.
    - eexists; reflexivity.
    - simpl in H. apply andb_true_iff in H as [Hr Hrest].
      destruct (dumps_printable_dict L r Hr) as [s Hs].
      simpl in Hs. rewrite Hs. simpl.
      destruct (IH Hrest) as [ss ->]. eexists; reflexivity. }
  destruct Hm as [ss ->]. eexists; reflexivity.
Qed.

Lemma printable_null_if_missing (x : scalar) :
  printable_cell x = true -> printable_value (null_if_missing x) = true.
Proof. destruct x as [| | | |f| |]; try reflexivity; try discriminate.
  now destruct f. Qed.

Lemma fill_printable (date_str : string) (items : list (label * scalar)) :
  forallb (fun kx => printable_key (fst kx) && printable_cell (snd kx)) items
  = true ->
  forallb printable_member (fill [(LStr "date", PStr date_str)] items) = true.
Proof.
  intros H. rewrite fill_writes.
  apply forallb_fold_dict_set; [|reflexivity].
  induction items as [|[k x] items IH]; simpl in *; [reflexivity|].
  apply andb_true_iff in H as [Hkx Hrest].
  apply andb_true_iff in Hkx as [Hk Hx].
  unfold printable_member at 1. simpl.
  now rewrite Hk, (printable_null_if_missing x Hx), IH.
Qed.

Lemma series_printable (df : DataFrame) (j : nat) :
  forallb printable_key (index df) = true ->
  (forall i j, printable_cell (iat df i j) = true) ->
  forallb (fun kx => printable_key (fst kx) && printable_cell (snd kx))
          (series df j) = true.
Proof.
  intros Hk Hc. apply forallb_forall. intros [k x] H.
  unfold series in H. apply in_map_iff in H as [[i r] [E Hin]].
  injection E as <- <-. simpl. rewrite Hc, andb_true_r.
  apply in_combine_r in Hin.
  rewrite forallb_forall in Hk. now apply Hk.
Qed.

Lemma statement_loop_printable (df : DataFrame) (cols : list label)
  (recs : list dict) :
  forallb printable_key (index df) = true ->
  (forall i j, printable_cell (iat df i j) = true) ->
  statement_loop df cols = Ok recs ->
  forallb (forallb printable_member) recs = true.
Proof.
  intros Hk Hc H. apply statement_loop_fills in H.
  apply forallb_forall. intros r Hr.
  rewrite Forall_forall in H.
  destruct (H r Hr) as [column [items [Hi ->]]].
  apply fill_printable.
  unfold column_items in Hi.
  destruct (position column (columns df)) as [j|]; [|discriminate].
  destruct (Nat.eqb (count column (columns df)) 1); [|discriminate].
  injection Hi as <-. now apply series_printable.
Qed.

(** X12.  On a resolved symbol, when the provider's statement is a
    table with pairwise distinct column labels, row labels that are
    strings or integers and cells that are numbers, strings, booleans or
    missing markers, [get_financial_statement] returns text: nothing on
    that path raises, and nothing is printed. *)
Theorem statement_returns_text (L : Libs) (how : enum_format) (w : world)
  (ticker : string) (k : FinancialType.t) (df : DataFrame) :
  resolves w ticker ->
  w (resolved ticker) (yf.Attr (matching_accessor k)) = Ok (OFrame df) ->
  unique (columns df) = true ->
  forallb printable_key (index df) = true ->
  (forall i j, printable_cell (iat df i j) = true) ->
  exists s,
    invoke w (get_financial_statement L how ticker (FinancialType.value k))
    = (resolved ticker ++ [Asked (yf.Attr (matching_accessor k))], Ok s).
Proof.
  intros Hr Hw Hu Hk Hc.
  destruct (statement_loop_clean df (columns df) [] eq_refl Hu)
    as [recs [Hrecs _]].
  destruct (dumps_printable_records L recs
              (statement_loop_printable df _ recs Hk Hc Hrecs)) as [s Hs].
  exists s. unfold get_financial_statement.
  rewrite run_resolved by assumption.
  rewrite select_statement_value, run_ask, Hw, run_lift.
  simpl statement_records. rewrite Hrecs, run_lift_end. now rewrite Hs.
Qed.

Lemma sample_statement_printable (i j : nat) :
  printable_cell (iat sample_statement i j) = true.
Proof. destruct i as [|[|i]], j as [|[|j]]; reflexivity. Defined.

Lemma statement_returns_text_witness :
  resolves market "AAPL"
  /\ unique (columns sample_statement) = true
  /\ forallb printable_key (index sample_statement) = true
  /\ exists s,
       snd (invoke market
              (get_financial_statement sample_libs ByName "AAPL" "cashflow"))
       = Ok s.
Proof.
  split; [exact market_resolves_AAPL|]. do 2 (split; [reflexivity|]).
  destruct (statement_returns_text sample_libs ByName market "AAPL"
              FinancialType.cashflow sample_statement market_resolves_AAPL
              eq_refl eq_refl eq_refl sample_statement_printable) as [s Hs].
  exists s. exact (f_equal snd Hs).
Defined.

(** ** The unregistered variants *)

(** X13.  [get_historical_stock_prices] is its [_mod] variant followed
    by [to_json(orient="records", date_format="iso")]: the two make the
    same requests and print the same lines; where the variant returns a
    string the tool returns that string, where it returns the table with
    its [Date] column the tool returns the table's text, and where it
    raises the tool raises the same exception. *)
Theorem prices_mod_agrees (L : Libs) (w : world)
  (ticker period interval : string) :
  fst (invoke w (get_historical_stock_prices L ticker period interval))
  = fst (invoke w (get_historical_stock_prices_mod ticker period interval))
  /\ snd (invoke w (get_historical_stock_prices L ticker period interval))
     = match snd (invoke w (get_historical_stock_prices_mod
                              ticker period interval)) with
       | Ok (OVal (PScalar (SStr s))) => Ok s
       | Ok o => to_json L Iso o
       | Err e => Err e
       end.
Proof.
  unfold invoke, get_historical_stock_prices,
    get_historical_stock_prices_mod.
  rewrite !run_ask.
  destruct (w [] (yf.Ticker ticker)) as [h|e]; [|split; reflexivity].
  simpl app. rewrite !run_check_isin.
  destruct (w [Asked (yf.Ticker ticker)] (yf.Attr yf.isin)) as [v|e];
    [destruct (is_None v)|]; try (split; reflexivity).
  rewrite !run_ask.
  destruct (w _ (yf.Attr (yf.history period interval))) as [o|e];
    [|split; reflexivity].
  rewrite run_lift_lift, run_lift_end. cbn [fst snd].
  split; [reflexivity|].
  destruct (reset_index "Date" o) as [o'|e] eqn:E; [|reflexivity].
  destruct o as [v'|df]; [discriminate E|].
  unfold reset_index in E.
  destruct (mem (LStr "Date") (columns df)); [discriminate E|].
  injection E as <-. reflexivity.
Qed.

Lemma run_ask_end (w : world) (past : list event) (r : yf.request) :
  run w past (ask r) = (past ++ [Asked r], w past r).
Proof. simpl. now destruct (w past r). Qed.

(** X14.  [get_financial_statement] and its [_mod] variant make the
    same requests and print the same lines.  Where the variant returns
    the provider's table, the tool returns the JSON text of the table's
    records; where the variant raises, the tool raises the same
    exception; and where the variant printed a line, both return it. *)
Theorem statement_mod_agrees (L : Libs) (how : enum_format) (w : world)
  (ticker financial_type : string) :
  fst (invoke w (get_financial_statement L how ticker financial_type))
  = fst (invoke w (get_financial_statement_mod how ticker financial_type))
  /\ (forall df,
        snd (invoke w (get_financial_statement_mod how ticker
                         financial_type)) = Ok (OFrame df) ->
        snd (invoke w (get_financial_statement L how ticker financial_type))
        = statement_text L (OFrame df))
  /\ (forall e,
        snd (invoke w (get_financial_statement_mod how ticker
                         financial_type)) = Err e ->
        snd (invoke w (get_financial_statement L how ticker financial_type))
        = Err e)
  /\ (forall line,
        printed (fst (invoke w (get_financial_statement_mod how ticker
                                  financial_type))) = [line] ->
        snd (invoke w (get_financial_statement_mod how ticker
                         financial_type)) = Ok (OVal (PStr line))
        /\ snd (invoke w (get_financial_statement L how ticker
                            financial_type)) = Ok line).
Proof.
  unfold invoke, get_financial_statement, get_financial_statement_mod,
    statement_text.
  rewrite !run_ask.
  destruct (w [] (yf.Ticker ticker)) as [h|e];
    [simpl app; rewrite !run_check_isin;
     destruct (w [Asked (yf.Ticker ticker)] (yf.Attr yf.isin)) as [v|e];
     [destruct (is_None v);
      [|destruct (select_statement financial_type) as [a|];
        [rewrite run_ask, run_ask_end;
         destruct (w _ (yf.Attr a)) as [o|e];
         [rewrite run_lift;
          destruct (statement_records o) as [recs|e'] eqn:E;
          [rewrite run_lift_end|]|]|]]|]|];
    cbn [run bind try_except fst snd printed flat_map app obind];
    (split; [reflexivity|]);
    (split; [intros df H; try discriminate H
            |split; [intros e0 H; try discriminate H
                    |intros line H; try discriminate H]]);
    try (injection H as <-); try (split; reflexivity); try reflexivity;
    now rewrite E.
Qed.
